(** * meazure-agg: aggregation and projection of time entries

    A shallow embedding of [src/index.js] (the command-line report of
    hours and earnings per project) and the properties of its aggregator
    ([aggregateResults]) and projector ([addProjections]).

    JavaScript numbers are IEEE 754 binary64 values; they are modelled by
    Rocq's primitive floats, which are the same format, so that sums,
    products, quotients and [Math.floor] evaluate bit for bit as in the
    program.  Plain objects are modelled as association lists kept in the
    order in which JavaScript enumerates own properties.

    Local time is modelled twice.  [Zone] gives moment's operations in a
    zone whose offset from UTC changes, and [aggregateResultsIn] and
    [addProjectionsIn] are the aggregator and the projector in such a
    zone, on instants.  [aggregateResults] and [addProjections] are the
    two functions where local time stays at one offset from UTC, on day
    numbers; [ZoneFacts.aggregateResults_fixed] and
    [ZoneFacts.addProjections_fixed] show that they are the former at a
    fixed offset. *)

From Stdlib Require Import ZArith List String Ascii Bool Lia Floats Sorted.
From Stdlib Require Import Permutation.
Import ListNotations.

Local Open Scope Z_scope.

(* ================================================================== *)
(** * JavaScript numbers *)
(* ================================================================== *)

Module JsNum.

(** The binary64 value nearest to an integer (exact below 2^53). *)
Definition of_Z (z : Z) : float :=
  SF2Prim (binary_normalize prec emax z 0 false).

(** [Math.floor]: NaN, the infinities and the zeros are returned as
    they are; a finite value [(-1)^s * m * 2^e] with [e >= 0] is an
    integer already; otherwise the mantissa is shifted right and, for a
    negative value that is not an integer, the result is one further
    down. *)
Definition floor (x : float) : float :=
  match Prim2SF x with
  | S754_finite s m (Zneg k) =>
      let q := Z.shiftr (Zpos m) (Zpos k) in
      let exact := Z.shiftl q (Zpos k) =? Zpos m in
      if s then (- of_Z (if exact then q else q + 1))%float else of_Z q
  | _ => x
  end.

(** [Number.isFinite]. *)
Definition isFinite (x : float) : bool :=
  match Prim2SF x with
  | S754_zero _ | S754_finite _ _ _ => true
  | S754_infinity _ | S754_nan => false
  end.

(** [Number.isNaN]. *)
Definition isNaN (x : float) : bool :=
  match Prim2SF x with
  | S754_nan => true
  | _ => false
  end.

(** [x >= 0] ([false] on NaN, [true] on both zeros and on +Infinity). *)
Definition nonneg (x : float) : bool := (0 <=? x)%float.

(** The same test on the specification of a binary64 value. *)
Definition SFnonneg (x : spec_float) : bool :=
  match x with
  | S754_zero _ => true
  | S754_infinity s | S754_finite s _ _ => negb s
  | S754_nan => false
  end.

(** A value read from a configuration object: a number stored there,
    [undefined] when the property is missing, or a member inherited
    from [Object.prototype] (a function, or the prototype itself for
    [__proto__]). *)
Inductive value :=
| Undefined
| Number (f : float)
| Inherited.

(** Truthiness, as tested by [&&] and [if]. *)
Definition truthy (v : value) : bool :=
  match v with
  | Undefined => false
  | Number f => negb (is_zero f || is_nan f)
  | Inherited => true
  end.

(** [ToNumber], applied by [*] to its operands. *)
Definition ToNumber (v : value) : float :=
  match v with
  | Number f => f
  | Undefined | Inherited => nan
  end.

End JsNum.

(* ================================================================== *)
(** * Plain objects *)
(* ================================================================== *)

(** A plain object is the list of its own enumerable properties in the
    order JavaScript enumerates them ([Object.keys], on which lodash's
    [_.values], [_.mapValues] and [_.keys] rest): first the keys that are
    array indices, in ascending numeric order, then the other string
    keys, in the order they were created. *)
Module JsObject.

Definition digit (c : ascii) : option Z :=
  let n := Z.of_N (N_of_ascii c) in
  if (48 <=? n) && (n <=? 57) then Some (n - 48) else None.

Fixpoint decimal (s : string) (acc : Z) : option Z :=
  match s with
  | EmptyString => Some acc
  | String c r =>
      match digit c with
      | Some d => decimal r (10 * acc + d)
      | None => None
      end
  end.

(** An array index is a canonical numeric string (no sign, no leading
    zero but for ["0"] itself) whose value is below 2^32 - 1. *)
Definition array_index (k : string) : option Z :=
  match k with
  | EmptyString => None
  | String c r =>
      if Ascii.eqb c "0" && negb (String.eqb r EmptyString) then None
      else
        match decimal k 0 with
        | Some n => if n <? 4294967295 then Some n else None
        | None => None
        end
  end.

Section Properties.

Context {V : Type}.

Definition t := list (string * V).

Definition empty : t := [].

(** [o[k]] for an own property. *)
Fixpoint get (k : string) (o : t) : option V :=
  match o with
  | [] => None
  | (k', v) :: r => if String.eqb k' k then Some v else get k r
  end.

Definition has (k : string) (o : t) : bool :=
  match get k o with Some _ => true | None => false end.

(** Assignment to an existing property keeps its place. *)
Fixpoint replace (k : string) (v : V) (o : t) : t :=
  match o with
  | [] => []
  | (k', v') :: r =>
      if String.eqb k' k then (k', v) :: r else (k', v') :: replace k v r
  end.

(** A new array-index key goes among the index keys, in numeric order. *)
Fixpoint insert_index (i : Z) (k : string) (v : V) (o : t) : t :=
  match o with
  | [] => [(k, v)]
  | (k', v') :: r =>
      match array_index k' with
      | Some j => if j <? i then (k', v') :: insert_index i k v r
                  else (k, v) :: o
      | None => (k, v) :: o
      end
  end.

(** [o[k] = v]. *)
Definition set (k : string) (v : V) (o : t) : t :=
  if has k o then replace k v o
  else
    match array_index k with
    | Some i => insert_index i k v o
    | None => o ++ [(k, v)]
    end.

Definition keys (o : t) : list string := map fst o.

(** [_.values]. *)
Definition values (o : t) : list V := map snd o.

End Properties.

Arguments t : clear implicits.

(** [_.mapValues]: the result has the keys of the source, created in the
    source's enumeration order, hence enumerated in the same order. *)
Definition mapValues {A B : Type} (f : A -> string -> B) (o : t A) : t B :=
  map (fun kv => (fst kv, f (snd kv) (fst kv))) o.

End JsObject.

(* ================================================================== *)
(** * Local time *)
(* ================================================================== *)

(** What the program reads from the clock ([moment()]) where local time
    stays at one offset from UTC: that offset in minutes, and the local
    calendar day, counted in days from 1970-01-01.  At a fixed offset a
    moment at local midnight ([startOf('day')], a parsed date, and what
    [add(1, 'days')] makes of them) is identified by its day number, and
    comparing two of them compares the day numbers.  An instant is a
    number of milliseconds from the epoch, as moment stores it.  Where
    the offset changes (daylight saving time) neither holds: see [Zone]
    below. *)
Record clock := {
  utcOffset : Z;
  today : Z
}.

Module Moment.

Definition msPerMinute : Z := 60000.
Definition msPerDay : Z := 86400000.

(** The instant of local midnight of a day, at the fixed offset of the
    clock; [Zone.startOfDay] is [startOf('day')] in any zone. *)
Definition startOfDay (c : clock) (day : Z) : Z :=
  day * msPerDay - utcOffset c * msPerMinute.

(** [m.weekday()] in the default locale: 0 is Sunday, 6 is Saturday
    (1970-01-01 was a Thursday). *)
Definition weekday (day : Z) : Z := (day + 4) mod 7.

(** Day number of a civil date of the proleptic Gregorian calendar. *)
Definition days_from_civil (y m d : Z) : Z :=
  let y' := if m <=? 2 then y - 1 else y in
  let era := y' / 400 in
  let yoe := y' - era * 400 in
  let doy := (153 * (if 2 <? m then m - 3 else m + 9) + 2) / 5 + d - 1 in
  let doe := yoe * 365 + yoe / 4 - yoe / 100 + doy in
  era * 146097 + doe - 719468.

(** Civil date (year, month, day of month) of a day number. *)
Definition civil_from_days (z : Z) : Z * Z * Z :=
  let z' := z + 719468 in
  let era := z' / 146097 in
  let doe := z' - era * 146097 in
  let yoe := (doe - doe / 1460 + doe / 36524 - doe / 146096) / 365 in
  let doy := doe - (365 * yoe + yoe / 4 - yoe / 100) in
  let mp := (5 * doy + 2) / 153 in
  let d := doy - (153 * mp + 2) / 5 + 1 in
  let m := if mp <? 10 then mp + 3 else mp - 9 in
  ((if m <=? 2 then yoe + era * 400 + 1 else yoe + era * 400), m, d).

Definition isLeapYear (y : Z) : bool :=
  ((y mod 4 =? 0) && negb (y mod 100 =? 0)) || (y mod 400 =? 0).

Definition daysInMonth (y m : Z) : Z :=
  if m =? 2 then (if isLeapYear y then 29 else 28)
  else if (m =? 4) || (m =? 6) || (m =? 9) || (m =? 11) then 30
  else 31.

Definition digit_char (n : Z) : ascii :=
  ascii_of_N (Z.to_N (48 + n mod 10)).

Definition pad2 (n : Z) : string :=
  String (digit_char (n / 10)) (String (digit_char n) EmptyString).

Definition pad4 (n : Z) : string :=
  String (digit_char (n / 1000)) (String (digit_char (n / 100)) (pad2 n)).

(** [format('YYYY-MM-DD')], for the years 0 to 9999. *)
Definition format (ymd : Z * Z * Z) : string :=
  let '(y, m, d) := ymd in
  (pad4 y ++ "-" ++ pad2 m ++ "-" ++ pad2 d)%string.

(** [moment().startOf('month')] and [moment().endOf('month')] as civil
    dates. *)
Definition startOfMonth (c : clock) : Z * Z * Z :=
  let '(y, m, _) := civil_from_days (today c) in (y, m, 1).

Definition endOfMonth (c : clock) : Z * Z * Z :=
  let '(y, m, _) := civil_from_days (today c) in (y, m, daysInMonth y m).

End Moment.

(** A time zone, as the platform gives it to moment: the offset of local
    time from UTC, in minutes, at an instant, and the instant a local
    wall-clock time is resolved to (both in milliseconds; a wall-clock
    time is counted from 1970-01-01 00:00 local). *)
Module Zone.

Record zone := {
  offsetAt : Z -> Z;
  fromLocal : Z -> Z
}.

(** The wall-clock time of an instant. *)
Definition toLocal (z : zone) (t : Z) : Z :=
  t + offsetAt z t * Moment.msPerMinute.

(** The local calendar day of an instant, in days from 1970-01-01. *)
Definition dayOf (z : zone) (t : Z) : Z := toLocal z t / Moment.msPerDay.

(** [moment(s, 'YYYY-MM-DD')] for the date of day number [day]: the
    wall-clock time 00:00 of that day, resolved. *)
Definition parse (z : zone) (day : Z) : Z :=
  fromLocal z (day * Moment.msPerDay).

(** [m.startOf('day')]. *)
Definition startOfDay (z : zone) (t : Z) : Z := parse z (dayOf z t).

(** [m.add(n, 'days')]: the date is moved and the time of day kept, on
    the wall clock, and the result resolved. *)
Definition addDays (z : zone) (n : Z) (t : Z) : Z :=
  fromLocal z (toLocal z t + n * Moment.msPerDay).

(** [m.weekday()] in the default locale. *)
Definition weekday (z : zone) (t : Z) : Z := Moment.weekday (dayOf z t).

(** Local time at a fixed offset. *)
Definition fixed (offset : Z) : zone :=
  {| offsetAt := fun _ => offset;
     fromLocal := fun w => w - offset * Moment.msPerMinute |}.

(** Local time with one change of offset, at the instant [change].  A
    wall-clock time that the change skips, or that it repeats, is read
    with the offset in force before the change. *)
Definition oneChange (before after change : Z) : zone :=
  {| offsetAt := fun t => if t <? change then before else after;
     fromLocal := fun w =>
       let tb := w - before * Moment.msPerMinute in
       let ta := w - after * Moment.msPerMinute in
       if tb <? change then tb
       else if change <=? ta then ta else tb |}.

(** The offsets of the zone lie between [lo] and [hi], less than a day
    apart, and a wall-clock time is resolved with one of them. *)
Definition within (lo hi : Z) (z : zone) : Prop :=
  hi - lo < 1440 /\
  (forall t, lo <= offsetAt z t <= hi) /\
  (forall w, lo * Moment.msPerMinute <= w - fromLocal z w
             <= hi * Moment.msPerMinute).

(** Midnight of a day exists on the wall clock: the instant it is
    resolved to shows 00:00 of that day. *)
Definition regular (z : zone) (day : Z) : Prop :=
  toLocal z (parse z day) = day * Moment.msPerDay.

End Zone.

(* ================================================================== *)
(** * Command line *)
(* ================================================================== *)

Definition dateFmt : string := "YYYY-MM-DD".

(** What minimist leaves in [argv.f] and [argv.t]: nothing when the flag
    is absent, [true] for a flag without a value, a number for a numeric
    value, else the string. *)
Module Argv.

Inductive arg :=
| Absent
| Str (s : string)
| Num (x : float)
| Bool (b : bool).

Definition truthy (a : arg) : bool :=
  match a with
  | Absent => false
  | Str s => negb (String.eqb s EmptyString)
  | Num x => negb (is_zero x || is_nan x)
  | Bool b => b
  end.

Record argv := { f : arg; t : arg }.

End Argv.

(** Lines 23-26: [if (!argv.f || !argv.t) { argv.f = ...; argv.t = ... }]. *)
Definition defaultRange (c : clock) (argv : Argv.argv) : Argv.argv :=
  if negb (Argv.truthy (Argv.f argv)) || negb (Argv.truthy (Argv.t argv))
  then {| Argv.f := Argv.Str (Moment.format (Moment.startOfMonth c));
          Argv.t := Argv.Str (Moment.format (Moment.endOfMonth c)) |}
  else argv.

(* ================================================================== *)
(** * Entries and configuration *)
(* ================================================================== *)

(** A record returned by the query.  [Date] is the instant
    [moment(e.Date)] denotes, in milliseconds; [ProjectName] is the
    property key the project name is used as. *)
Record entry := {
  Date : Z;
  DurationSeconds : float;
  ProjectName : string;
  TaskName : string
}.

(** The configuration file: [rates] is optional, and holds numbers. *)
Record config := {
  uname : string;
  pword : string;
  rates : option (list (string * float))
}.

(** The members every plain object inherits from [Object.prototype]. *)
Definition object_prototype_members : list string :=
  ["constructor"; "__defineGetter__"; "__defineSetter__"; "hasOwnProperty";
   "__lookupGetter__"; "__lookupSetter__"; "isPrototypeOf";
   "propertyIsEnumerable"; "toString"; "valueOf"; "__proto__";
   "toLocaleString"]%string.

(** [r[k]] on the rates object: the own property when there is one, else
    what the prototype chain gives. *)
Definition read (r : list (string * float)) (k : string) : JsNum.value :=
  match JsObject.get k r with
  | Some x => JsNum.Number x
  | None =>
      if existsb (String.eqb k) object_prototype_members
      then JsNum.Inherited else JsNum.Undefined
  end.

(** A per-project aggregate, and the grand total. *)
Record aggregate := {
  hours : float;
  earnings : float
}.

Record projections := {
  weekDays : Z;
  weekDaysPast : Z;
  percentComplete : float;
  avgEarningsPerDay : float;
  avgHoursPerDay : float;
  estimatedEarnings : float;
  estimatedHours : float
}.

(** The values held by the object the aggregator returns. *)
Inductive field :=
| Agg (a : aggregate)
| Flag (b : bool)
| Proj (p : projections).

(* ================================================================== *)
(** * The aggregator *)
(* ================================================================== *)

(** [_.groupBy(entries, 'ProjectName')]: the entries are visited in
    order; an entry joins the group of its project name, and a name seen
    for the first time creates a property. *)
Definition groupBy_step (result : JsObject.t (list entry)) (e : entry)
  : JsObject.t (list entry) :=
  let key := ProjectName e in
  match JsObject.get key result with
  | Some items => JsObject.set key (items ++ [e]) result
  | None => JsObject.set key [e] result
  end.

Definition groupBy (entries : list entry) : JsObject.t (list entry) :=
  fold_left groupBy_step entries JsObject.empty.

(** Lines 108-111: the durations of a group, added up from 0. *)
Definition summed (items : list entry) : float :=
  fold_left (fun memo i => (memo + DurationSeconds i)%float) items 0%float.

(** Lines 113-118: the rate of a project. *)
Definition rate (cfg : config) (project : string) : JsNum.value :=
  match rates cfg with
  | Some r =>
      if JsNum.truthy (read r project) then read r project
      else if JsNum.truthy (read r "_default") then read r "_default"
      else JsNum.Number 0
  | None => JsNum.Number 0
  end.

(** Lines 107-121: the iteratee of [_.mapValues]. *)
Definition aggregateProject (cfg : config) (items : list entry)
  (project : string) : aggregate :=
  let h := (summed items / 60 / 60)%float in
  {| hours := h;
     earnings := (JsNum.ToNumber (rate cfg project) * h)%float |}.

Definition aggregated (entries : list entry) (cfg : config)
  : JsObject.t aggregate :=
  JsObject.mapValues (aggregateProject cfg) (groupBy entries).

(** Lines 122-126: the reduction of [_.values(aggregated)]. *)
Definition addAggregate (memo e : aggregate) : aggregate :=
  {| hours := (hours memo + hours e)%float;
     earnings := (earnings memo + earnings e)%float |}.

Definition total (l : list aggregate) : aggregate :=
  fold_left addAggregate l {| hours := 0; earnings := 0 |}.

(** What holds of every aggregate however large the numbers: hours are
    [>= 0], and earnings are [>= 0] or NaN. *)
Definition neverNegative (a : aggregate) : Prop :=
  JsNum.nonneg (hours a) = true /\
  (JsNum.nonneg (earnings a) = true \/ JsNum.isNaN (earnings a) = true).

(** Lines 132-140: the predicate of [_.find], at a fixed offset, where
    tomorrow's midnight is 24 hours after today's; [enteredTodayIn]
    below is the predicate in any zone. *)
Definition enteredToday (c : clock) (e : entry) : bool :=
  let now := Moment.startOfDay c (today c) in
  let tomorrow := Moment.startOfDay c (today c + 1) in
  let m := Date e + (- utcOffset c) * Moment.msPerMinute in
  (now <=? m) && (m <=? tomorrow).

Definition aggregateResults (c : clock) (entries : list entry) (cfg : config)
  : JsObject.t field :=
  let aggregated := aggregated entries cfg in
  let result :=
    JsObject.set "total" (Agg (total (JsObject.values aggregated)))
      (JsObject.mapValues (fun a _ => Agg a) aggregated) in
  let result := JsObject.set "haveEntryToday" (Flag false) result in
  match find (enteredToday c) entries with
  | Some _ => JsObject.set "haveEntryToday" (Flag true) result
  | None => result
  end.

(** Lines 132-140 in a zone: [utcOffset] is the offset read at line 21,
    [now] the instant [moment()] gives. *)
Definition enteredTodayIn (z : Zone.zone) (utcOffset now : Z) (e : entry)
  : bool :=
  let start := Zone.startOfDay z now in
  let tomorrow := Zone.addDays z 1 (Zone.startOfDay z now) in
  let m := Date e + (- utcOffset) * Moment.msPerMinute in
  (start <=? m) && (m <=? tomorrow).

(** [aggregateResults] in a zone. *)
Definition aggregateResultsIn (z : Zone.zone) (utcOffset now : Z)
  (entries : list entry) (cfg : config) : JsObject.t field :=
  let aggregated := aggregated entries cfg in
  let result :=
    JsObject.set "total" (Agg (total (JsObject.values aggregated)))
      (JsObject.mapValues (fun a _ => Agg a) aggregated) in
  let result := JsObject.set "haveEntryToday" (Flag false) result in
  match find (enteredTodayIn z utcOffset now) entries with
  | Some _ => JsObject.set "haveEntryToday" (Flag true) result
  | None => result
  end.

(* ================================================================== *)
(** * The projector *)
(* ================================================================== *)

(** How a call ends: with a value, with an exception, or, for the model
    of the loop only, with its fuel used up. *)
Inductive outcome (A : Type) :=
| Returned (a : A)
| Thrown
| OutOfFuel.

Arguments Returned {A} a.
Arguments Thrown {A}.
Arguments OutOfFuel {A}.

(** Lines 160-168 at a fixed offset: the walk over the days [c],
    [c + 1], ... up to [to]; the counters are integers, so they are kept
    in [Z].  [walkIn] below is the loop in any zone, on instants. *)
Fixpoint walk (fuel : nat) (to now c weekDays weekDaysPast : Z)
  : option (Z * Z) :=
  if c <=? to then
    match fuel with
    | O => None
    | S fuel' =>
        if (Moment.weekday c <? 6) && (0 <? Moment.weekday c) then
          walk fuel' to now (c + 1) (weekDays + 1)
            (if c <? now then weekDaysPast + 1 else weekDaysPast)
        else walk fuel' to now (c + 1) weekDays weekDaysPast
    end
  else Some (weekDays, weekDaysPast).

(** [entries.haveEntryToday] as a condition. *)
Definition haveEntryToday (entries : JsObject.t field) : bool :=
  match JsObject.get "haveEntryToday" entries with
  | Some (Flag b) => b
  | Some _ => true
  | None => false
  end.

(** [entries.total.hours] and [entries.total.earnings]: reading a
    property of [undefined] throws; a value without the property gives
    [undefined], which the division turns into NaN. *)
Definition totals (entries : JsObject.t field) : outcome (float * float) :=
  match JsObject.get "total" entries with
  | Some (Agg a) => Returned (hours a, earnings a)
  | Some _ => Returned (nan, nan)
  | None => Thrown
  end.

(** Lines 169-182. *)
Definition computeProjections (weekDays weekDaysPast : Z)
  (totalHours totalEarnings : float) : projections :=
  let wd := JsNum.of_Z weekDays in
  let wdp := JsNum.of_Z weekDaysPast in
  let ratioComplete := (wdp / wd)%float in
  let percentComplete := JsNum.floor (ratioComplete * 100) in
  let earningsPerDay := JsNum.floor (totalEarnings / wdp) in
  let estimatedEarnings := JsNum.floor (earningsPerDay * wd) in
  let estimatedHours := (wd * (totalHours / wdp))%float in
  {| weekDays := weekDays;
     weekDaysPast := weekDaysPast;
     percentComplete := percentComplete;
     avgEarningsPerDay := earningsPerDay;
     avgHoursPerDay := (totalHours / wdp)%float;
     estimatedEarnings := estimatedEarnings;
     estimatedHours := estimatedHours |}.

(** [addProjections] at a fixed offset; [from] and [to] are the days
    [argv.f] and [argv.t] parse to. *)
Definition addProjections (c : clock) (from to : Z)
  (entries : JsObject.t field) : outcome (JsObject.t field) :=
  if to <=? from then Returned entries
  else
    let now := if haveEntryToday entries then today c + 1 else today c in
    match walk (Z.to_nat (to - from + 1)) to now from 0 0 with
    | None => OutOfFuel
    | Some (weekDays, weekDaysPast) =>
        match totals entries with
        | Returned (h, e) =>
            Returned
              (JsObject.set "projections"
                 (Proj (computeProjections weekDays weekDaysPast h e)) entries)
        | Thrown => Thrown
        | OutOfFuel => OutOfFuel
        end
    end.

(** Lines 160-168 in a zone: [c], [to] and [now] are instants, and [c]
    is moved by [c.add(1, 'days')]. *)
Fixpoint walkIn (z : Zone.zone) (fuel : nat)
  (to now c weekDays weekDaysPast : Z) : option (Z * Z) :=
  if c <=? to then
    match fuel with
    | O => None
    | S fuel' =>
        if (Zone.weekday z c <? 6) && (0 <? Zone.weekday z c) then
          walkIn z fuel' to now (Zone.addDays z 1 c) (weekDays + 1)
            (if c <? now then weekDaysPast + 1 else weekDaysPast)
        else walkIn z fuel' to now (Zone.addDays z 1 c) weekDays weekDaysPast
    end
  else Some (weekDays, weekDaysPast).

(** [addProjections] in a zone; [now] is the instant [moment()] gives,
    [from] and [to] are the day numbers of the dates in [argv.f] and
    [argv.t].  The fuel is one step a minute of the range, more than the
    loop takes in a zone whose offsets are less than a day apart. *)
Definition addProjectionsIn (z : Zone.zone) (now : Z) (from to : Z)
  (entries : JsObject.t field) : outcome (JsObject.t field) :=
  let fromM := Zone.parse z from in
  let toM := Zone.parse z to in
  if toM <=? fromM then Returned entries
  else
    let today := Zone.startOfDay z now in
    let tomorrow := Zone.addDays z 1 (Zone.startOfDay z now) in
    let reference := if haveEntryToday entries then tomorrow else today in
    match walkIn z (Z.to_nat ((toM - fromM) / Moment.msPerMinute + 1))
            toM reference fromM 0 0 with
    | None => OutOfFuel
    | Some (weekDays, weekDaysPast) =>
        match totals entries with
        | Returned (h, e) =>
            Returned
              (JsObject.set "projections"
                 (Proj (computeProjections weekDays weekDaysPast h e)) entries)
        | Thrown => Thrown
        | OutOfFuel => OutOfFuel
        end
    end.

(* ================================================================== *)
(** * The specification's reading of the aggregator and the projector *)
(* ================================================================== *)

(** The definitions of this part follow the words of the specification
    (quoted where they are taken literally); the theorems below compare
    them with the program. *)
Module Spec.

(** The entries of one project, in the order they were fetched. *)
Definition group (entries : list entry) (p : string) : list entry :=
  filter (fun e => String.eqb (ProjectName e) p) entries.

(** The distinct elements of a list, each at its first occurrence. *)
Fixpoint first_occurrences (l : list string) : list string :=
  match l with
  | [] => []
  | x :: r => x :: filter (fun y => negb (String.eqb x y)) (first_occurrences r)
  end.

(** Insertion order of the project groups. *)
Definition insertionOrder (entries : list entry) : list string :=
  first_occurrences (map ProjectName entries).

(** The next five definitions state the order in which JavaScript
    enumerates the keys of an object, which the specification does not
    mention: a key is an array index or not, and the array indices come
    first, compared by value. *)
Definition isIndex (k : string) : bool :=
  match JsObject.array_index k with Some _ => true | None => false end.

Definition indexValue (k : string) : Z :=
  match JsObject.array_index k with Some i => i | None => 0 end.

Fixpoint insertAscending (k : string) (l : list string) : list string :=
  match l with
  | [] => [k]
  | x :: r =>
      if indexValue x <? indexValue k then x :: insertAscending k r
      else k :: l
  end.

(** Array-index names sorted by numeric value. *)
Definition ascending (l : list string) : list string :=
  fold_left (fun acc k => insertAscending k acc) l [].

(** The order in which the keys of a plain object are enumerated, given
    the order in which they were created. *)
Definition enumerationOrder (created : list string) : list string :=
  (ascending (filter isIndex created) ++
   filter (fun k => negb (isIndex k)) created)%list.

Definition visitOrder (entries : list entry) : list string :=
  enumerationOrder (insertionOrder entries).

(** The per-project aggregates, listed along a list of project names. *)
Definition aggregatesAlong (cfg : config) (entries : list entry)
  (order : list string) : list aggregate :=
  map (fun p => aggregateProject cfg (group entries p) p) order.

(** "use rates[project] if present, else rates._default if present,
    else 0". *)
Definition rateIfPresent (cfg : config) (project : string) : float :=
  match rates cfg with
  | Some r =>
      match JsObject.get project r with
      | Some x => x
      | None =>
          match JsObject.get "_default"%string r with
          | Some d => d
          | None => 0%float
          end
      end
  | None => 0%float
  end.

(** "sum durationSeconds, convert to hours (/3600)" and
    "earnings = hours * rate". *)
Definition aggregateOf (cfg : config) (items : list entry) (project : string)
  : aggregate :=
  let h := (summed items / 3600)%float in
  {| hours := h; earnings := (h * rateIfPresent cfg project)%float |}.

(** "every calendar day from fromDate to toDate inclusive". *)
Definition calendarDays (from to : Z) : list Z :=
  map (fun i => from + Z.of_nat i) (seq 0 (Z.to_nat (to - from + 1))).

(** A week day: its weekday index is neither 0 (Sunday) nor 6
    (Saturday). *)
Definition isWeekDay (day : Z) : bool :=
  negb (Moment.weekday day =? 0) && negb (Moment.weekday day =? 6).

Definition weekDaysInRange (from to : Z) : Z :=
  Z.of_nat (List.length (filter isWeekDay (calendarDays from to))).

(** The week days strictly before the reference. *)
Definition weekDaysElapsed (from to reference : Z) : Z :=
  Z.of_nat (List.length (filter (fun d => isWeekDay d && (d <? reference))
                      (calendarDays from to))).

(** "start of today; if haveEntryToday is true, shift the reference
    forward to start of tomorrow". *)
Definition reference (c : clock) (haveEntry : bool) : Z :=
  if haveEntry then today c + 1 else today c.

(** "percentComplete = floor(100 * weekDaysElapsed / weekDaysInRange)",
    read over the integers and read as a binary64 expression. *)
Definition percentCompleteExact (elapsed inRange : Z) : float :=
  JsNum.of_Z (100 * elapsed / inRange).

Definition percentCompleteFloat (elapsed inRange : Z) : float :=
  JsNum.floor (100 * JsNum.of_Z elapsed / JsNum.of_Z inRange).

(** "falls within [todayStart, todayStart+1day] inclusive on both ends",
    "the inclusive 24-hour window starting at local midnight", after the
    offset in minutes is subtracted from the timestamp. *)
Definition withinToday (z : Zone.zone) (utcOffset now : Z) (e : entry)
  : Prop :=
  let todayStart := Zone.startOfDay z now in
  todayStart <= Date e - utcOffset * 60000 <= todayStart + 86400000.

(** The same with the window ending one calendar day after its start,
    at the wall-clock time of the start. *)
Definition withinLocalDay (z : Zone.zone) (utcOffset now : Z) (e : entry)
  : Prop :=
  let todayStart := Zone.startOfDay z now in
  todayStart <= Date e - utcOffset * 60000 <= Zone.addDays z 1 todayStart.

End Spec.

(* ================================================================== *)
(** * Sample inputs *)
(* ================================================================== *)

Module Samples.
Local Open Scope string_scope.

(** Wednesday 2016-05-04, seven hours behind UTC. *)
Definition clk : clock := {| utcOffset := -420; today := 16925 |}.

(** An entry made at ten in the morning of a local day. *)
Definition entryOn (day : Z) (seconds : float) (project : string) : entry :=
  {| Date := Moment.startOfDay clk day + 36000000;
     DurationSeconds := seconds;
     ProjectName := project;
     TaskName := "dev" |}.

Definition cfgWith (r : option (list (string * float))) : config :=
  {| uname := "me@example.com"; pword := "secret"; rates := r |}.

(** Three projects whose names are array indices, fetched in the order
    2, 3, 1; project 1 is billed at 2^53 per hour. *)
Definition numbered : list entry :=
  [entryOn 16923 3600 "2"; entryOn 16923 3600 "3"; entryOn 16924 3600 "1"].

Definition numberedCfg : config :=
  cfgWith (Some [("1", 9007199254740992%float); ("2", 1%float); ("3", 1%float)]).

(** Five seconds on a project configured at rate 0, with a default. *)
Definition fiveSeconds : list entry := [entryOn 16924 5 "A"].

Definition zeroRateCfg : config :=
  cfgWith (Some [("A", 0%float); ("_default", 50%float)]).

(** Two entries whose durations add up beyond the largest binary64. *)
Definition huge : list entry :=
  [entryOn 16923 0x1.fffffffffffffp+1023 "A";
   entryOn 16924 0x1.fffffffffffffp+1023 "A"].

(** A project named total, next to another one. *)
Definition withTotal : list entry :=
  [entryOn 16923 3600 "total"; entryOn 16924 7200 "B"].

(** Ten hours on project A, billed at 10 per hour, on the Monday and the
    Tuesday of the week of 2016-05-02. *)
Definition worked : list entry :=
  [entryOn 16923 18000 "A"; entryOn 16924 18000 "A"].

Definition tenCfg : config := cfgWith (Some [("A", 10%float)]).

(** Friday 2016-06-10 and Monday 2016-05-02. *)
Definition fridayClk : clock := {| utcOffset := -420; today := 16962 |}.

Definition mondayClk : clock := {| utcOffset := -420; today := 16923 |}.

End Samples.

(** Inputs in zones with daylight saving time. *)
Module ZoneSamples.
Local Open Scope string_scope.
Local Open Scope Z_scope.
(** America/Sao_Paulo in October 2016: three hours behind UTC until
    2016-10-16 00:00 local (03:00 UTC), when the clocks go to 01:00. *)
Definition saoPaulo : Zone.zone :=
  Zone.oneChange (-180) (-120) (17090 * 86400000 + 3 * 3600000).

(** Wednesday 2016-10-12, 10:00 in Sao Paulo. *)
Definition wednesdayMorning : Z := 17086 * 86400000 + 13 * 3600000.

(** Ten hours at rate 10 on Monday 2016-10-10 and Tuesday 2016-10-11. *)
Definition octoberWork : list entry :=
  [{| Date := 17084 * 86400000 + 13 * 3600000; DurationSeconds := 18000;
      ProjectName := "A"; TaskName := "dev" |};
   {| Date := 17085 * 86400000 + 13 * 3600000; DurationSeconds := 18000;
      ProjectName := "A"; TaskName := "dev" |}].

(** Sunday 2016-10-16, noon in Sao Paulo, and five hours entered that
    morning. *)
Definition sundayNoon : Z := 17090 * 86400000 + 14 * 3600000.

Definition sundayWork : list entry :=
  [{| Date := 17090 * 86400000 + 10 * 3600000; DurationSeconds := 18000;
      ProjectName := "A"; TaskName := "dev" |}].

(** Friday 2016-10-21, noon in Sao Paulo, and an hour entered that
    morning. *)
Definition fridayNoon : Z := 17095 * 86400000 + 14 * 3600000.

Definition fridayWork : list entry :=
  [{| Date := 17095 * 86400000 + 10 * 3600000; DurationSeconds := 3600;
      ProjectName := "A"; TaskName := "dev" |}].

(** America/Los_Angeles in March 2016: eight hours behind UTC until
    2016-03-13 02:00 local (10:00 UTC), seven after. *)
Definition losAngeles : Zone.zone :=
  Zone.oneChange (-480) (-420) (16873 * 86400000 + 10 * 3600000).

(** Sunday 2016-03-13, 10:00 in Los Angeles, after the change. *)
Definition sundayInLosAngeles : Z := 16873 * 86400000 + 17 * 3600000.

(** An hour on Friday 2016-03-11, at noon in Los Angeles. *)
Definition marchWork : list entry :=
  [{| Date := 16871 * 86400000 + 20 * 3600000; DurationSeconds := 3600;
      ProjectName := "A"; TaskName := "dev" |}].
(** Wednesday 2016-05-04, 10:00 in Los Angeles. *)
Definition wednesdayInLosAngeles : Z := 16925 * 86400000 + 17 * 3600000.

(** Monday 2016-03-14, 10:00 in Los Angeles. *)
Definition mondayInLosAngeles : Z := 16874 * 86400000 + 17 * 3600000.

(** [marchWork] and an hour stamped Monday 2016-03-14, 10:00. *)
Definition mondayWork : list entry :=
  marchWork ++
  [{| Date := 16874 * 86400000 + 10 * 3600000; DurationSeconds := 3600;
      ProjectName := "A"; TaskName := "dev" |}]%list.

(** Ten hours on project A, and on project B two durations that add up
    beyond the largest binary64. *)
Definition withOverflow : list entry :=
  (Samples.worked ++
   [Samples.entryOn 16923 0x1.fffffffffffffp+1023 "B";
    Samples.entryOn 16924 0x1.fffffffffffffp+1023 "B"])%list.

(** An entry stamped 2016-03-14 00:30 UTC. *)
Definition lateEntry : entry :=
  {| Date := 16874 * 86400000 + 30 * 60000; DurationSeconds := 3600;
     ProjectName := "A"; TaskName := "dev" |}.
End ZoneSamples.

(* ================================================================== *)
(** * The first run, and a test on numbers *)
(* ================================================================== *)

(** A zero of either sign. *)
Definition isZero (x : float) : bool :=
  match Prim2SF x with
  | S754_zero _ => true
  | _ => false
  end.

(** Lines 194-204: what the prompt resolves to; no rates. *)
Definition promptForCredentials (answerUname answerPword : string) : config :=
  {| uname := answerUname; pword := answerPword; rates := None |}.

(* ================================================================== *)
(** * Facts about binary64 arithmetic *)
(* ================================================================== *)

(** Signs, NaN and the infinities through the operations the program
    uses, from the specification of the primitive operations. *)
Module FloatFacts.
Import JsNum.

Lemma nonneg_spec (x : float) : nonneg x = SFnonneg (Prim2SF x).
Proof.
  unfold nonneg. rewrite leb_spec.
  change (Prim2SF 0) with (S754_zero false).
  destruct (Prim2SF x) as [s|s| |s m e]; try destruct s; reflexivity.
Qed.

Lemma shr_1_nonneg (mrs : shr_record) :
  0 <= shr_m mrs -> 0 <= shr_m (shr_1 mrs).
Proof.
  destruct mrs as [m r s]; simpl. 
  destruct m as [|p|p]; [ | destruct p | ]; simpl; lia.
Qed.

Lemma iter_shr_1_nonneg (p : positive) :
  forall mrs, 0 <= shr_m mrs -> 0 <= shr_m (iter_pos shr_1 p mrs).
Proof.
  induction p as [p IH|p IH|]; simpl; intros mrs H.
  - apply IH, IH, shr_1_nonneg, H.
  - apply IH, IH, H.
  - apply shr_1_nonneg, H.
Qed.

Lemma shr_fexp_nonneg (m e : Z) (l : location) :
  0 <= m -> 0 <= shr_m (fst (shr_fexp prec emax m e l)).
Proof.
  intros H. unfold shr_fexp, shr.
  assert (H0 : 0 <= shr_m (shr_record_of_loc m l)).
  { destruct l as [|[ | | ]]; exact H. }
  destruct (fexp prec emax (Zdigits2 m + e) - e); simpl; auto.
  apply iter_shr_1_nonneg, H0.
Qed.

Lemma round_nearest_even_nonneg (m : Z) (l : location) :
  0 <= m -> 0 <= round_nearest_even m l.
Proof.
  intros H. destruct l as [|[ | | ]]; simpl; try lia.
  destruct (Z.even m); lia.
Qed.

Lemma binary_round_aux_nonneg (mx ex : Z) (lx : location) :
  0 <= mx -> SFnonneg (binary_round_aux prec emax false mx ex lx) = true.
Proof.
  intros H. unfold binary_round_aux.
  pose proof (shr_fexp_nonneg mx ex lx H) as H1.
  destruct (shr_fexp prec emax mx ex lx) as [mrs' e']. simpl in H1.
  pose proof (shr_fexp_nonneg _ e' loc_Exact
                (round_nearest_even_nonneg _ (loc_of_shr_record mrs') H1)) as H2.
  destruct (shr_fexp prec emax _ e' loc_Exact) as [mrs'' e'']. simpl in H2.
  destruct (shr_m mrs'') as [|p|p]; [reflexivity| |lia].
  destruct (e'' <=? emax - prec); reflexivity.
Qed.

Lemma binary_round_nonneg (p : positive) (e : Z) :
  SFnonneg (binary_round prec emax false p e) = true.
Proof.
  unfold binary_round.
  destruct (shl_align p e _) as [mz ez].
  apply binary_round_aux_nonneg. lia.
Qed.

Lemma SFadd_nonneg (x y : spec_float) :
  SFnonneg x = true -> SFnonneg y = true -> SFnonneg (SF64add x y) = true.
Proof.
  destruct x as [sx|sx| |sx mx ex]; destruct y as [sy|sy| |sy my ey];
    try destruct sx; try destruct sy; simpl; try discriminate; try reflexivity.
  intros _ _. apply binary_round_nonneg.
Qed.

Lemma SFmul_nonneg (x y : spec_float) :
  SFnonneg x = true -> SFnonneg y = true ->
  SFnonneg (SF64mul x y) = true \/ SF64mul x y = S754_nan.
Proof.
  destruct x as [sx|sx| |sx mx ex]; destruct y as [sy|sy| |sy my ey];
    try destruct sx; try destruct sy; simpl; try discriminate; auto.
  intros _ _. left. apply binary_round_aux_nonneg. lia.
Qed.

Lemma SFdiv_nonneg (x : spec_float) (my : positive) (ey : Z) :
  SFnonneg x = true ->
  SFnonneg (SF64div x (S754_finite false my ey)) = true.
Proof.
  destruct x as [sx|sx| |sx mx ex]; try destruct sx; simpl;
    try discriminate; try reflexivity.
  intros _. unfold SF64div, SFdiv.
  destruct (SFdiv_core_binary prec emax (Z.pos mx) ex (Z.pos my) ey)
    as [[mz ez] lz] eqn:E.
  apply binary_round_aux_nonneg.
  unfold SFdiv_core_binary in E.
  set (m' := match _ - _ - _ with Z0 => Z.pos mx | Zpos _ => _ | Zneg _ => 0 end) in E.
  assert (Hm : 0 <= m').
  { subst m'. destruct (_ - _ - _); try lia. apply Z.shiftl_nonneg. lia. }
  pose proof (Z.div_eucl_eq m' (Z.pos my) ltac:(lia)) as Hq.
  pose proof (Z.mod_pos_bound m' (Z.pos my) ltac:(lia)) as Hr.
  unfold Z.modulo in Hr.
  destruct (Z.div_eucl m' (Z.pos my)) as [q r].
  injection E as <- _ _. nia.
Qed.

Lemma add_nonneg (x y : float) :
  nonneg x = true -> nonneg y = true -> nonneg (x + y) = true.
Proof.
  rewrite !nonneg_spec, add_spec. apply SFadd_nonneg.
Qed.

Lemma div_60_nonneg (x : float) :
  nonneg x = true -> nonneg (x / 60) = true.
Proof.
  rewrite !nonneg_spec, div_spec.
  change (Prim2SF 60) with (S754_finite false 8444249301319680 (-47)).
  apply SFdiv_nonneg.
Qed.

Lemma mul_nonneg (x y : float) :
  nonneg x = true -> nonneg y = true ->
  nonneg (x * y) = true \/ isNaN (x * y) = true.
Proof.
  rewrite !nonneg_spec. unfold isNaN. rewrite mul_spec. intros Hx Hy.
  destruct (SFmul_nonneg _ _ Hx Hy) as [H|H]; [left; exact H|right].
  rewrite H. reflexivity.
Qed.

Lemma SFmul_nonneg_finite (x y : spec_float) :
  SFnonneg x = true -> SFnonneg y = true ->
  (forall s, x <> S754_infinity s) -> (forall s, y <> S754_infinity s) ->
  SFnonneg (SF64mul x y) = true.
Proof.
  intros Hx Hy Fx Fy.
  destruct (SFmul_nonneg x y Hx Hy) as [H|H]; [exact H|].
  destruct x as [sx|sx| |sx mx ex]; try discriminate;
    try (exfalso; exact (Fx sx eq_refl));
    destruct y as [sy|sy| |sy my ey]; try discriminate;
    try (exfalso; exact (Fy sy eq_refl)).
  exfalso. simpl in Hx, Hy.
  apply negb_true_iff in Hx, Hy. subst sx sy.
  pose proof (binary_round_aux_nonneg (Z.pos (mx * my)) (ex + ey) loc_Exact
                ltac:(lia)) as N.
  simpl in H. rewrite H in N. discriminate.
Qed.

Lemma mul_nonneg_finite (x y : float) :
  nonneg x = true -> nonneg y = true ->
  isFinite x = true -> isFinite y = true ->
  nonneg (x * y) = true.
Proof.
  rewrite !nonneg_spec, mul_spec. unfold isFinite. intros Hx Hy Fx Fy.
  apply SFmul_nonneg_finite; try assumption.
  - intros s E. rewrite E in Fx. discriminate.
  - intros s E. rewrite E in Fy. discriminate.
Qed.

Lemma isNaN_add_l (x y : float) : isNaN x = true -> isNaN (x + y) = true.
Proof.
  unfold isNaN. rewrite add_spec.
  destruct (Prim2SF x); try discriminate. reflexivity.
Qed.

Lemma isNaN_add_r (x y : float) : isNaN y = true -> isNaN (x + y) = true.
Proof.
  unfold isNaN. rewrite add_spec.
  destruct (Prim2SF y); try discriminate.
  destruct (Prim2SF x) as [s|s| |s m e]; try destruct s; reflexivity.
Qed.

Lemma isNaN_nan_mul (y : float) : isNaN (nan * y) = true.
Proof.
  unfold isNaN. rewrite mul_spec. reflexivity.
Qed.

Lemma nonneg_not_NaN (x : float) : nonneg x = true -> isNaN x = false.
Proof.
  rewrite nonneg_spec. unfold isNaN.
  destruct (Prim2SF x); try discriminate; reflexivity.
Qed.

Lemma SFmul_comm (x y : spec_float) : SF64mul x y = SF64mul y x.
Proof.
  destruct x as [sx|sx| |sx mx ex]; destruct y as [sy|sy| |sy my ey];
    simpl; try reflexivity; try (rewrite xorb_comm; reflexivity).
  rewrite xorb_comm, Pos.mul_comm, Z.add_comm. reflexivity.
Qed.

Lemma mul_comm (x y : float) : (x * y = y * x)%float.
Proof.
  apply Prim2SF_inj. rewrite !mul_spec. apply SFmul_comm.
Qed.

Lemma div_0_not_finite (x : float) : isFinite (x / 0) = false.
Proof.
  unfold isFinite. rewrite div_spec.
  change (Prim2SF 0) with (S754_zero false).
  destruct (Prim2SF x) as [s|s| |s m e]; reflexivity.
Qed.

Lemma mul_not_finite_l (x y : float) :
  isFinite x = false -> isFinite (x * y) = false.
Proof.
  unfold isFinite. rewrite mul_spec.
  destruct (Prim2SF x) as [s|s| |s m e]; try discriminate;
    destruct (Prim2SF y) as [s'|s'| |s' m' e']; reflexivity.
Qed.

Lemma mul_not_finite_r (x y : float) :
  isFinite y = false -> isFinite (x * y) = false.
Proof.
  rewrite mul_comm. apply mul_not_finite_l.
Qed.

Lemma floor_not_finite (x : float) : isFinite x = false -> floor x = x.
Proof.
  unfold isFinite, floor.
  destruct (Prim2SF x) as [s|s| |s m e]; try discriminate; reflexivity.
Qed.

Lemma of_Z_0 : of_Z 0 = 0%float.
Proof. reflexivity. Qed.

End FloatFacts.

(* ================================================================== *)
(** * Facts about plain objects *)
(* ================================================================== *)

Module ObjectFacts.
Import JsObject.

Section WithValues.

Context {V : Type}.
Implicit Types (o : t V) (k : string) (v : V).

Lemma get_None_keys k o : get k o = None <-> ~ In k (keys o).
Proof.
  induction o as [|[k' v'] r IH]; simpl.
  - tauto.
  - destruct (String.eqb_spec k' k) as [->|Hne].
    + split; [discriminate|tauto].
    + rewrite IH. tauto.
Qed.

Lemma has_keys k o : has k o = true <-> In k (keys o).
Proof.
  unfold has. pose proof (get_None_keys k o) as H.
  destruct (get k o).
  - split; [intros _|reflexivity].
    destruct (in_dec string_dec k (keys o)) as [Hin|Hout]; [exact Hin|].
    apply H in Hout. discriminate.
  - split; [discriminate|]. intros Hin. exfalso. apply H; auto.
Qed.

Lemma get_app k o o' :
  get k (o ++ o') = match get k o with Some v => Some v | None => get k o' end.
Proof.
  induction o as [|[k' v'] r IH]; simpl; [reflexivity|].
  destruct (String.eqb k' k); auto.
Qed.

Lemma get_replace_same k v o : has k o = true -> get k (replace k v o) = Some v.
Proof.
  unfold has. induction o as [|[k' v'] r IH]; simpl; [discriminate|].
  destruct (String.eqb k' k) eqn:E; simpl; rewrite E; auto.
Qed.

Lemma get_replace_other k k' v o : k <> k' -> get k' (replace k v o) = get k' o.
Proof.
  intros Hne. induction o as [|[k0 v0] r IH]; simpl; [reflexivity|].
  destruct (String.eqb_spec k0 k) as [->|H0]; simpl.
  - apply String.eqb_neq in Hne. now rewrite Hne.
  - rewrite IH. reflexivity.
Qed.

Lemma keys_replace k v o : keys (replace k v o) = keys o.
Proof.
  induction o as [|[k0 v0] r IH]; simpl; [reflexivity|].
  destruct (String.eqb k0 k); simpl; [reflexivity|]. now rewrite IH.
Qed.

Lemma get_insert_index_same i k v o :
  get k o = None -> get k (insert_index i k v o) = Some v.
Proof.
  induction o as [|[k0 v0] r IH]; simpl; intros H.
  - now rewrite String.eqb_refl.
  - destruct (String.eqb k0 k) eqn:E; [discriminate|].
    destruct (array_index k0) as [j|]; [destruct (j <? i)|]; simpl;
      rewrite ?E, ?String.eqb_refl; auto.
Qed.

Lemma get_insert_index_other i k k' v o :
  k <> k' -> get k' (insert_index i k v o) = get k' o.
Proof.
  intros Hne. apply String.eqb_neq in Hne.
  induction o as [|[k0 v0] r IH]; simpl.
  - now rewrite Hne.
  - destruct (array_index k0) as [j|]; [destruct (j <? i)|]; simpl;
      rewrite ?Hne, ?IH; reflexivity.
Qed.

Lemma In_keys_insert_index i k v o x :
  In x (keys (insert_index i k v o)) <-> x = k \/ In x (keys o).
Proof.
  induction o as [|[k0 v0] r IH]; simpl.
  - intuition.
  - destruct (array_index k0) as [j|]; [destruct (j <? i)|]; simpl;
      rewrite ?IH; intuition.
Qed.

Lemma NoDup_keys_insert_index i k v o :
  ~ In k (keys o) -> NoDup (keys o) -> NoDup (keys (insert_index i k v o)).
Proof.
  induction o as [|[k0 v0] r IH]; simpl; intros Hout Hnd.
  - constructor; [tauto|constructor].
  - inversion Hnd as [|? ? Hk0 Hr]; subst.
    destruct (array_index k0) as [j|]; [destruct (j <? i)|]; simpl.
    + constructor.
      * rewrite In_keys_insert_index. intuition.
      * apply IH; tauto.
    + constructor; [simpl; tauto|exact Hnd].
    + constructor; [simpl; tauto|exact Hnd].
Qed.

Theorem get_set_same k v o : get k (set k v o) = Some v.
Proof.
  unfold set. destruct (has k o) eqn:E.
  - apply get_replace_same, E.
  - assert (H : get k o = None).
    { unfold has in E. destruct (get k o); [discriminate|reflexivity]. }
    destruct (array_index k).
    + apply get_insert_index_same, H.
    + rewrite get_app, H. simpl. now rewrite String.eqb_refl.
Qed.

Theorem get_set_other k k' v o : k <> k' -> get k' (set k v o) = get k' o.
Proof.
  intros Hne. unfold set. destruct (has k o).
  - apply get_replace_other, Hne.
  - destruct (array_index k).
    + apply get_insert_index_other, Hne.
    + rewrite get_app. simpl. apply String.eqb_neq in Hne. rewrite Hne.
      destruct (get k' o); reflexivity.
Qed.

Lemma In_keys_set k v o x : In x (keys (set k v o)) <-> x = k \/ In x (keys o).
Proof.
  unfold set. destruct (has k o) eqn:E.
  - rewrite keys_replace. apply has_keys in E.
    split; [tauto|]. intros [->|H]; assumption.
  - destruct (array_index k).
    + apply In_keys_insert_index.
    + unfold keys. rewrite map_app, in_app_iff. simpl.
      intuition congruence.
Qed.

Theorem NoDup_keys_set k v o : NoDup (keys o) -> NoDup (keys (set k v o)).
Proof.
  intros Hnd. unfold set. destruct (has k o) eqn:E.
  - now rewrite keys_replace.
  - assert (Hout : ~ In k (keys o)).
    { intros Hin. apply has_keys in Hin. congruence. }
    destruct (array_index k).
    + apply NoDup_keys_insert_index; assumption.
    + unfold keys. rewrite map_app. simpl.
      apply NoDup_app; [assumption|constructor; [intros []|constructor]|].
      intros x Hx [<-|[]]. exact (Hout Hx).
Qed.
End WithValues.
End ObjectFacts.

(* ================================================================== *)
(** * Facts about grouping *)
(* ================================================================== *)

Module GroupFacts.
Import JsObject ObjectFacts.

Lemma get_mapValues {A B : Type} (f : A -> string -> B) (k : string) (o : t A) :
  get k (mapValues f o) = option_map (fun v => f v k) (get k o).
Proof.
  induction o as [|[k0 v0] r IH]; simpl; [reflexivity|].
  destruct (String.eqb_spec k0 k) as [->|Hne]; [reflexivity|exact IH].
Qed.

Lemma keys_mapValues {A B : Type} (f : A -> string -> B) (o : t A) :
  keys (mapValues f o) = keys o.
Proof.
  unfold keys, mapValues. rewrite map_map. reflexivity.
Qed.

(** An object without duplicate keys is determined by what [get] reads
    along its keys. *)
Lemma eq_map_keys {A : Type} (f : string -> A) (o : t A) :
  NoDup (keys o) ->
  (forall k, In k (keys o) -> get k o = Some (f k)) ->
  o = map (fun k => (k, f k)) (keys o).
Proof.
  induction o as [|[k0 v0] r IH]; simpl; intros Hnd Hget; [reflexivity|].
  inversion Hnd as [|? ? Hout Hr]; subst.
  f_equal.
  - specialize (Hget k0 (or_introl eq_refl)).
    rewrite String.eqb_refl in Hget. congruence.
  - apply IH; [exact Hr|]. intros k Hk.
    specialize (Hget k (or_intror Hk)).
    destruct (String.eqb_spec k0 k) as [->|Hne]; [contradiction|exact Hget].
Qed.

Lemma groupBy_snoc (l : list entry) (e : entry) :
  groupBy (l ++ [e]) = groupBy_step (groupBy l) e.
Proof.
  unfold groupBy. rewrite fold_left_app. reflexivity.
Qed.

Lemma group_snoc (l : list entry) (e : entry) (p : string) :
  Spec.group (l ++ [e]) p =
  Spec.group l p ++ (if String.eqb (ProjectName e) p then [e] else []).
Proof.
  unfold Spec.group. rewrite filter_app. reflexivity.
Qed.

(** The grouped object holds, under each project name that occurs, the
    entries of that project in the order they were fetched. *)
Lemma get_groupBy (l : list entry) (p : string) :
  get p (groupBy l) =
  match Spec.group l p with [] => None | items => Some items end.
Proof.
  induction l as [|e l IH] using rev_ind; [reflexivity|].
  rewrite groupBy_snoc, group_snoc. unfold groupBy_step.
  destruct (String.eqb_spec (ProjectName e) p) as [<-|Hne].
  - rewrite IH.
    destruct (Spec.group l (ProjectName e)) as [|i items];
      rewrite get_set_same; reflexivity.
  - rewrite app_nil_r.
    destruct (get (ProjectName e) (groupBy l));
      rewrite get_set_other by exact Hne; exact IH.
Qed.

Lemma NoDup_keys_groupBy (l : list entry) : NoDup (keys (groupBy l)).
Proof.
  induction l as [|e l IH] using rev_ind; [constructor|].
  rewrite groupBy_snoc. unfold groupBy_step.
  destruct (get (ProjectName e) (groupBy l)); apply NoDup_keys_set, IH.
Qed.

Lemma group_nil_iff (l : list entry) (p : string) :
  Spec.group l p = [] <-> ~ In p (map ProjectName l).
Proof.
  induction l as [|e l IH]; simpl; [tauto|].
  destruct (String.eqb_spec (ProjectName e) p) as [->|Hne].
  - split; [discriminate|tauto].
  - rewrite IH. tauto.
Qed.

Lemma In_keys_groupBy (l : list entry) (p : string) :
  In p (keys (groupBy l)) <-> In p (map ProjectName l).
Proof.
  pose proof (get_None_keys p (groupBy l)) as H.
  pose proof (group_nil_iff l p) as G.
  rewrite get_groupBy in H.
  destruct (Spec.group l p) as [|i items].
  - split; intros Hin; exfalso; [apply H|apply G]; auto.
  - split; intros _.
    + destruct (in_dec string_dec p (map ProjectName l)) as [Hin|Hout]; auto.
      apply G in Hout. discriminate.
    + destruct (in_dec string_dec p (keys (groupBy l))) as [Hin|Hout]; auto.
      apply H in Hout. discriminate.
Qed.

Lemma groupBy_eq (l : list entry) :
  groupBy l = map (fun p => (p, Spec.group l p)) (keys (groupBy l)).
Proof.
  apply eq_map_keys; [apply NoDup_keys_groupBy|].
  intros p Hp. rewrite get_groupBy.
  apply In_keys_groupBy in Hp.
  destruct (Spec.group l p) eqn:E; [|reflexivity].
  apply group_nil_iff in E. contradiction.
Qed.

(** The aggregates the reduction visits are those of the groups, along
    the keys of the grouped object. *)
Lemma values_aggregated (l : list entry) (cfg : config) :
  values (aggregated l cfg) = Spec.aggregatesAlong cfg l (keys (groupBy l)).
Proof.
  unfold aggregated, values, mapValues, Spec.aggregatesAlong.
  rewrite groupBy_eq at 1. rewrite !map_map. reflexivity.
Qed.

Lemma get_aggregated (l : list entry) (cfg : config) (p : string) :
  In p (map ProjectName l) ->
  get p (aggregated l cfg) = Some (aggregateProject cfg (Spec.group l p) p).
Proof.
  intros Hp. unfold aggregated. rewrite get_mapValues, get_groupBy.
  destruct (Spec.group l p) eqn:E; [|reflexivity].
  apply group_nil_iff in E. contradiction.
Qed.

Lemma first_occurrences_snoc (l : list string) (x : string) :
  Spec.first_occurrences (l ++ [x]) =
  if existsb (String.eqb x) l then Spec.first_occurrences l
  else Spec.first_occurrences l ++ [x].
Proof.
  induction l as [|a l IH]; simpl; [reflexivity|].
  rewrite IH. rewrite (String.eqb_sym x a).
  destruct (String.eqb a x) eqn:E; simpl.
  - destruct (existsb (String.eqb x) l); [reflexivity|].
    rewrite filter_app. simpl. rewrite E. simpl. now rewrite app_nil_r.
  - destruct (existsb (String.eqb x) l); [reflexivity|].
    rewrite filter_app. simpl. rewrite E. reflexivity.
Qed.

Lemma has_groupBy (l : list entry) (p : string) :
  has p (groupBy l) = existsb (String.eqb p) (map ProjectName l).
Proof.
  apply eq_true_iff_eq. rewrite has_keys, In_keys_groupBy, existsb_exists.
  split.
  - intros H. exists p. split; [exact H|apply String.eqb_refl].
  - intros [x [Hx E]]. apply String.eqb_eq in E. now subst.
Qed.

(** When no project name is an array index, the groups are enumerated in
    insertion order. *)
Lemma keys_groupBy_insertionOrder (l : list entry) :
  Forall (fun e => array_index (ProjectName e) = None) l ->
  keys (groupBy l) = Spec.insertionOrder l.
Proof.
  unfold Spec.insertionOrder.
  induction l as [|e l IH] using rev_ind; intros Hall; [reflexivity|].
  apply Forall_app in Hall as [Hl He]. inversion He as [|? ? Hidx _]; subst.
  rewrite groupBy_snoc, map_app. simpl. rewrite first_occurrences_snoc.
  rewrite <- has_groupBy, <- (IH Hl). unfold groupBy_step, has.
  destruct (get (ProjectName e) (groupBy l)) eqn:G; unfold set, has; rewrite G.
  - apply keys_replace.
  - rewrite Hidx. unfold keys. rewrite map_app. reflexivity.
Qed.

End GroupFacts.

(* ================================================================== *)
(** * The order in which the groups are visited *)
(* ================================================================== *)

Module OrderFacts.
Local Open Scope string_scope.
Local Open Scope Z_scope.
Import JsObject ObjectFacts GroupFacts Spec.

Lemma Forall_insertAscending (P : string -> Prop) k l :
  P k -> Forall P l -> Forall P (insertAscending k l).
Proof.
  intros Hk. induction 1 as [|x r Hx Hr IH]; simpl.
  - auto.
  - destruct (indexValue x <? indexValue k); auto.
Qed.

Lemma Forall_ascending (P : string -> Prop) l :
  Forall P l -> Forall P (ascending l).
Proof.
  unfold ascending. generalize (@nil string) (Forall_nil P).
  induction l as [|k l IH]; intros acc Hacc H; simpl; [exact Hacc|].
  inversion H; subst. apply IH; [|assumption].
  apply Forall_insertAscending; assumption.
Qed.

Lemma insertAscending_sorted k l :
  Sorted (fun a b => indexValue a <= indexValue b) l ->
  Sorted (fun a b => indexValue a <= indexValue b) (insertAscending k l).
Proof.
  induction 1 as [|x r Hr IH Hx]; simpl.
  - repeat constructor.
  - destruct (Z.ltb_spec (indexValue x) (indexValue k)) as [Hlt|Hge].
    + constructor; [exact IH|].
      destruct r as [|y r']; simpl.
      * constructor. lia.
      * inversion Hx; subst.
        destruct (indexValue y <? indexValue k); constructor; lia.
    + constructor; [constructor; assumption|constructor; lia].
Qed.

Lemma ascending_sorted l :
  Sorted (fun a b => indexValue a <= indexValue b) (ascending l).
Proof.
  unfold ascending.
  generalize (@nil string)
    (Sorted_nil (fun a b => indexValue a <= indexValue b)).
  induction l as [|k l IH]; intros acc Hacc; simpl; [exact Hacc|].
  apply IH, insertAscending_sorted, Hacc.
Qed.

(** A new index key lands, among the keys, where the ascending
    insertion puts it. *)
Lemma keys_insert_index {V : Type} i k (v : V) :
  array_index k = Some i ->
  forall (s n : list string) (o : t V),
    keys o = (s ++ n)%list ->
    Forall (fun x => isIndex x = true) s ->
    Forall (fun x => isIndex x = false) n ->
    keys (insert_index i k v o) = (insertAscending k s ++ n)%list.
Proof.
  intros Hk. induction s as [|x s IH]; intros n o Ho Hs Hn.
  - simpl in *. destruct o as [|[k0 v0] r]; simpl in *.
    + now subst.
    + subst n. inversion Hn as [|? ? H0 _]; subst.
      unfold isIndex in H0. destruct (array_index k0); [discriminate|].
      reflexivity.
  - destruct o as [|[k0 v0] r]; simpl in Ho; [discriminate|].
    injection Ho as -> Hr. inversion Hs as [|? ? Hx Hs']; subst.
    simpl. unfold isIndex in Hx. unfold indexValue at 1 2. rewrite Hk.
    destruct (array_index x) as [j|]; [|discriminate].
    destruct (j <? i); simpl; [|now rewrite Hr].
    f_equal. apply IH; assumption.
Qed.

Lemma filter_isIndex_all l :
  Forall (fun x => isIndex x = true) (filter isIndex l).
Proof.
  apply Forall_forall. intros x Hx. apply filter_In in Hx. tauto.
Qed.

Lemma filter_not_isIndex_all l :
  Forall (fun x => isIndex x = false) (filter (fun k => negb (isIndex k)) l).
Proof.
  apply Forall_forall. intros x Hx. apply filter_In in Hx.
  destruct Hx as [_ Hx]. now apply negb_true_iff in Hx.
Qed.

(** The groups are enumerated with the array-index names first, in
    ascending order, and the other names after them, in insertion
    order. *)
Lemma keys_groupBy_visitOrder (l : list entry) :
  keys (groupBy l) = visitOrder l.
Proof.
  unfold visitOrder, insertionOrder.
  induction l as [|e l IH] using rev_ind; [reflexivity|].
  rewrite groupBy_snoc, map_app. simpl. rewrite first_occurrences_snoc.
  rewrite <- has_groupBy. unfold groupBy_step, has.
  destruct (get (ProjectName e) (groupBy l)) eqn:G; unfold set, has; rewrite G.
  - rewrite keys_replace. exact IH.
  - unfold enumerationOrder in *. rewrite !filter_app. simpl.
    destruct (array_index (ProjectName e)) as [i|] eqn:A.
    + unfold isIndex at 2 4. rewrite A. simpl. rewrite app_nil_r.
      unfold ascending at 1. rewrite fold_left_app. simpl.
      apply keys_insert_index;
        [exact A|exact IH|
         apply Forall_ascending, filter_isIndex_all|
         apply filter_not_isIndex_all].
    + unfold isIndex at 2 4. rewrite A. simpl. rewrite app_nil_r.
      unfold keys. rewrite map_app. simpl.
      fold (keys (groupBy l)). rewrite IH. now rewrite <- app_assoc.
Qed.

Lemma enumerationOrder_no_index (l : list string) :
  Forall (fun k => array_index k = None) l -> enumerationOrder l = l.
Proof.
  intros H. unfold enumerationOrder.
  assert (E1 : filter isIndex l = []).
  { induction H as [|k l Hk _ IH]; simpl; [reflexivity|].
    unfold isIndex at 1. now rewrite Hk. }
  assert (E2 : filter (fun k => negb (isIndex k)) l = l).
  { clear E1. induction H as [|k l Hk _ IH]; simpl; [reflexivity|].
    unfold isIndex at 1. rewrite Hk. simpl. now f_equal. }
  rewrite E1, E2. reflexivity.
Qed.

End OrderFacts.

(* ================================================================== *)
(** * Facts about the aggregator *)
(* ================================================================== *)

Module AggregatorFacts.
Import JsObject ObjectFacts GroupFacts FloatFacts.
Local Open Scope string_scope.

Lemma get_In {V : Type} (k : string) (v : V) (o : t V) :
  get k o = Some v -> In (k, v) o.
Proof.
  induction o as [|[k0 v0] r IH]; simpl; [discriminate|].
  destruct (String.eqb_spec k0 k) as [->|Hne].
  - intros [= ->]. now left.
  - intros H. right. auto.
Qed.

Lemma In_get {V : Type} (k : string) (v : V) (o : t V) :
  NoDup (keys o) -> In (k, v) o -> get k o = Some v.
Proof.
  induction o as [|[k0 v0] r IH]; simpl; intros Hnd Hin; [contradiction|].
  inversion Hnd as [|? ? Hout Hr]; subst.
  destruct Hin as [[= -> ->]|Hin].
  - now rewrite String.eqb_refl.
  - destruct (String.eqb_spec k0 k) as [->|Hne]; [|auto].
    exfalso. apply Hout. apply (in_map fst) in Hin. exact Hin.
Qed.

Lemma find_existsb {A : Type} (p : A -> bool) (l : list A) :
  match find p l with Some _ => true | None => false end = existsb p l.
Proof.
  induction l as [|a l IH]; simpl; [reflexivity|].
  destruct (p a); [reflexivity|exact IH].
Qed.

Lemma get_total_aggregateResults c entries cfg :
  get "total" (aggregateResults c entries cfg) =
  Some (Agg (total (values (aggregated entries cfg)))).
Proof.
  unfold aggregateResults.
  destruct (find (enteredToday c) entries);
    rewrite ?(get_set_other "haveEntryToday" "total") by discriminate;
    apply get_set_same.
Qed.

Lemma get_haveEntryToday_aggregateResults c entries cfg :
  get "haveEntryToday" (aggregateResults c entries cfg) =
  Some (Flag (existsb (enteredToday c) entries)).
Proof.
  unfold aggregateResults. rewrite <- find_existsb.
  destruct (find (enteredToday c) entries); apply get_set_same.
Qed.

Lemma get_project_aggregateResults c entries cfg p :
  p <> "total" -> p <> "haveEntryToday" ->
  get p (aggregateResults c entries cfg) =
  option_map Agg (get p (aggregated entries cfg)).
Proof.
  intros H1 H2. unfold aggregateResults.
  destruct (find (enteredToday c) entries);
    rewrite ?(get_set_other "haveEntryToday" p) by congruence;
    rewrite (get_set_other "total" p) by congruence;
    apply get_mapValues.
Qed.

Lemma NoDup_keys_aggregateResults c entries cfg :
  NoDup (keys (aggregateResults c entries cfg)).
Proof.
  unfold aggregateResults.
  destruct (find (enteredToday c) entries); repeat apply NoDup_keys_set;
    rewrite keys_mapValues; unfold aggregated; rewrite keys_mapValues;
    apply NoDup_keys_groupBy.
Qed.

End AggregatorFacts.

(* ================================================================== *)
(** * Signs of hours and earnings *)
(* ================================================================== *)

Module SignFacts.
Import FloatFacts.

Lemma fold_durations_nonneg (items : list entry) :
  Forall (fun e => JsNum.nonneg (DurationSeconds e) = true) items ->
  forall acc, JsNum.nonneg acc = true ->
  JsNum.nonneg
    (fold_left (fun memo i => (memo + DurationSeconds i)%float) items acc)
  = true.
Proof.
  induction 1 as [|e items He _ IH]; intros acc Hacc; simpl; [exact Hacc|].
  apply IH, add_nonneg; assumption.
Qed.

Lemma hours_nonneg (items : list entry) :
  Forall (fun e => JsNum.nonneg (DurationSeconds e) = true) items ->
  JsNum.nonneg (summed items / 60 / 60) = true.
Proof.
  intros H. apply div_60_nonneg, div_60_nonneg.
  apply fold_durations_nonneg; [exact H|reflexivity].
Qed.

Lemma read_cases (r : list (string * float)) (k : string) :
  Forall (fun kv => JsNum.nonneg (snd kv) = true) r ->
  (exists x, read r k = JsNum.Number x /\ JsNum.nonneg x = true) \/
  read r k = JsNum.Inherited \/ read r k = JsNum.Undefined.
Proof.
  intros Hr. unfold read. destruct (JsObject.get k r) as [x|] eqn:G.
  - left. exists x. split; [reflexivity|].
    apply AggregatorFacts.get_In in G.
    rewrite Forall_forall in Hr. exact (Hr _ G).
  - right. destruct (existsb _ _); auto.
Qed.

Lemma default_cases (r : list (string * float)) :
  Forall (fun kv => JsNum.nonneg (snd kv) = true) r ->
  (exists x,
     (if JsNum.truthy (read r "_default") then read r "_default"
      else JsNum.Number 0) = JsNum.Number x /\ JsNum.nonneg x = true) \/
  (if JsNum.truthy (read r "_default") then read r "_default"
   else JsNum.Number 0) = JsNum.Inherited.
Proof.
  intros Hr.
  destruct (read_cases r "_default" Hr) as [[d [E Hd]]|[E|E]]; rewrite E.
  - left. destruct (JsNum.truthy (JsNum.Number d)).
    + exists d. auto.
    + exists 0%float. auto.
  - right. reflexivity.
  - left. exists 0%float. auto.
Qed.

Lemma rate_cases (cfg : config) (p : string) :
  (forall r, rates cfg = Some r ->
             Forall (fun kv => JsNum.nonneg (snd kv) = true) r) ->
  (exists x, rate cfg p = JsNum.Number x /\ JsNum.nonneg x = true) \/
  rate cfg p = JsNum.Inherited.
Proof.
  intros Hr. unfold rate. destruct (rates cfg) as [r|].
  - specialize (Hr r eq_refl).
    destruct (read_cases r p Hr) as [[x [E Hx]]|[E|E]]; rewrite E.
    + destruct (JsNum.truthy (JsNum.Number x)).
      * left. exists x. auto.
      * apply default_cases, Hr.
    + right. reflexivity.
    + apply default_cases, Hr.
  - left. exists 0%float. auto.
Qed.

Lemma aggregateProject_neverNegative cfg items p :
  Forall (fun e => JsNum.nonneg (DurationSeconds e) = true) items ->
  (forall r, rates cfg = Some r ->
             Forall (fun kv => JsNum.nonneg (snd kv) = true) r) ->
  neverNegative (aggregateProject cfg items p).
Proof.
  intros Hd Hr. pose proof (hours_nonneg items Hd) as Hh.
  split; [exact Hh|]. simpl.
  destruct (rate_cases cfg p Hr) as [[x [E Hx]]|E]; rewrite E; simpl.
  - apply mul_nonneg; assumption.
  - right. apply isNaN_nan_mul.
Qed.

Lemma aggregateProject_finite cfg items p x :
  Forall (fun e => JsNum.nonneg (DurationSeconds e) = true) items ->
  (forall r, rates cfg = Some r ->
             Forall (fun kv => JsNum.nonneg (snd kv) = true) r) ->
  rate cfg p = JsNum.Number x ->
  JsNum.isFinite x = true ->
  JsNum.isFinite (hours (aggregateProject cfg items p)) = true ->
  JsNum.nonneg (earnings (aggregateProject cfg items p)) = true.
Proof.
  intros Hd Hr E Fx Fh. pose proof (hours_nonneg items Hd) as Hh.
  simpl in *. rewrite E. simpl.
  destruct (rate_cases cfg p Hr) as [[x' [E' Hx']]|E']; rewrite E in E';
    [|discriminate].
  injection E' as <-.
  apply mul_nonneg_finite; assumption.
Qed.

Lemma addAggregate_neverNegative (memo e : aggregate) :
  neverNegative memo -> neverNegative e -> neverNegative (addAggregate memo e).
Proof.
  intros [Hh [He|He]] [Hh' [He'|He']]; split; simpl;
    try (apply add_nonneg; assumption).
  - left. apply add_nonneg; assumption.
  - right. apply isNaN_add_r, He'.
  - right. apply isNaN_add_l, He.
  - right. apply isNaN_add_l, He.
Qed.

Lemma total_neverNegative (l : list aggregate) :
  Forall neverNegative l -> neverNegative (total l).
Proof.
  unfold total.
  assert (H0 : neverNegative {| hours := 0; earnings := 0 |}).
  { split; [reflexivity|left; reflexivity]. }
  revert H0. generalize {| hours := 0; earnings := 0 |}.
  intros acc Hacc H. revert acc Hacc.
  induction H as [|e l He _ IH]; intros acc Hacc; simpl; [exact Hacc|].
  apply IH, addAggregate_neverNegative; assumption.
Qed.

Lemma group_durations_nonneg (entries : list entry) (p : string) :
  Forall (fun e => JsNum.nonneg (DurationSeconds e) = true) entries ->
  Forall (fun e => JsNum.nonneg (DurationSeconds e) = true)
    (Spec.group entries p).
Proof.
  rewrite !Forall_forall. intros H e He.
  apply filter_In in He. apply H, He.
Qed.

End SignFacts.

(* ================================================================== *)
(** * Facts about the projector *)
(* ================================================================== *)

Module ProjectorFacts.
Import Spec.

Lemma calendarDays_nil (c to : Z) : to < c -> calendarDays c to = [].
Proof.
  intros H. unfold calendarDays.
  replace (Z.to_nat (to - c + 1)) with O by lia. reflexivity.
Qed.

Lemma calendarDays_cons (c to : Z) :
  c <= to -> calendarDays c to = c :: calendarDays (c + 1) to.
Proof.
  intros H. unfold calendarDays.
  replace (Z.to_nat (to - c + 1)) with (S (Z.to_nat (to - (c + 1) + 1))) by lia.
  simpl. f_equal; [lia|].
  rewrite <- seq_shift, map_map. apply map_ext. intros i. lia.
Qed.

(** The test of line 161 is the week-day test of the specification. *)
Lemma weekday_test (d : Z) :
  (Moment.weekday d <? 6) && (0 <? Moment.weekday d) = isWeekDay d.
Proof.
  unfold isWeekDay, Moment.weekday.
  pose proof (Z.mod_pos_bound (d + 4) 7 ltac:(lia)) as B.
  destruct (Z.ltb_spec ((d + 4) mod 7) 6), (Z.ltb_spec 0 ((d + 4) mod 7)),
    (Z.eqb_spec ((d + 4) mod 7) 0), (Z.eqb_spec ((d + 4) mod 7) 6);
    simpl; try reflexivity; lia.
Qed.

(** The loop ends, within the fuel given, on the two counts. *)
Lemma walk_counts (to now : Z) (fuel : nat) :
  forall c wd wdp,
    (Z.to_nat (to - c + 1) <= fuel)%nat ->
    walk fuel to now c wd wdp =
    Some (wd + Z.of_nat (List.length (filter isWeekDay (calendarDays c to))),
          wdp + Z.of_nat (List.length
                            (filter (fun d => isWeekDay d && (d <? now))
                               (calendarDays c to)))).
Proof.
  induction fuel as [|fuel IH]; intros c wd wdp Hfuel.
  - assert (Hc : to < c) by lia.
    simpl. destruct (Z.leb_spec c to); [lia|].
    rewrite calendarDays_nil by exact Hc. simpl. f_equal. f_equal; lia.
  - simpl. destruct (Z.leb_spec c to) as [Hle|Hgt].
    + rewrite calendarDays_cons by exact Hle. simpl.
      rewrite weekday_test.
      destruct (isWeekDay c); simpl.
      * rewrite IH by lia. destruct (c <? now); simpl; f_equal; f_equal; lia.
      * rewrite IH by lia. reflexivity.
    + rewrite calendarDays_nil by exact Hgt. simpl. f_equal. f_equal; lia.
Qed.

Lemma addProjections_returns c from to entries h e :
  from < to ->
  totals entries = Returned (h, e) ->
  addProjections c from to entries =
  Returned
    (JsObject.set "projections"
       (Proj (computeProjections
                (weekDaysInRange from to)
                (weekDaysElapsed from to (reference c (haveEntryToday entries)))
                h e))
       entries).
Proof.
  intros Hlt Ht. unfold addProjections.
  destruct (Z.leb_spec to from); [lia|].
  rewrite walk_counts by lia. rewrite Ht. reflexivity.
Qed.

Lemma totals_returned entries :
  JsObject.get "total" entries <> None ->
  exists h e, totals entries = Returned (h, e).
Proof.
  unfold totals. destruct (JsObject.get "total" entries) as [[a|b|p]|];
    intros H; eauto. contradiction.
Qed.

End ProjectorFacts.

(* ================================================================== *)
(** * Facts about zones, and the two functions in a zone *)
(* ================================================================== *)

Module ZoneFacts.
Import Zone.
Local Open Scope string_scope.
Local Open Scope Z_scope.

Section InAZone.

Variables (lo hi : Z) (z : zone).
Hypothesis Hz : within lo hi z.

Lemma fromLocal_bounds (w : Z) :
  w - hi * 60000 <= fromLocal z w <= w - lo * 60000.
Proof.
  destruct Hz as [_ [_ H]]. specialize (H w).
  unfold Moment.msPerMinute in H. lia.
Qed.

Lemma toLocal_bounds (t : Z) :
  t + lo * 60000 <= toLocal z t <= t + hi * 60000.
Proof.
  destruct Hz as [_ [H _]]. specialize (H t).
  unfold toLocal, Moment.msPerMinute. lia.
Qed.

Lemma spread : hi - lo <= 1439.
Proof. destruct Hz as [H _]. lia. Qed.

(** A day on, the instant is at least a minute later. *)
Lemma addDays_later (t : Z) : t + 60000 <= addDays z 1 t.
Proof.
  unfold addDays, Moment.msPerDay.
  pose proof (fromLocal_bounds (toLocal z t + 1 * 86400000)).
  pose proof (toLocal_bounds t). pose proof spread. lia.
Qed.

(** Midnights come in the order of their days. *)
Lemma parse_lt (d r : Z) : d < r -> parse z d + 60000 * (r - d) <= parse z r.
Proof.
  intros H. unfold parse, Moment.msPerDay.
  pose proof (fromLocal_bounds (d * 86400000)).
  pose proof (fromLocal_bounds (r * 86400000)).
  pose proof spread. nia.
Qed.

Lemma parse_le (d r : Z) : d <= r -> parse z d <= parse z r.
Proof.
  intros H. destruct (Z.eq_dec d r) as [->|Hne]; [lia|].
  pose proof (parse_lt d r ltac:(lia)). lia.
Qed.

Lemma parse_ltb (d r : Z) : (parse z d <? parse z r) = (d <? r).
Proof.
  destruct (Z.ltb_spec d r) as [H|H].
  - apply Z.ltb_lt. pose proof (parse_lt d r H). lia.
  - apply Z.ltb_ge. apply parse_le, H.
Qed.

Lemma parse_leb (d r : Z) : (parse z d <=? parse z r) = (d <=? r).
Proof.
  destruct (Z.leb_spec d r) as [H|H].
  - apply Z.leb_le. apply parse_le, H.
  - apply Z.leb_gt. pose proof (parse_lt r d H). lia.
Qed.

Lemma dayOf_regular (d : Z) : regular z d -> dayOf z (parse z d) = d.
Proof.
  unfold regular, dayOf. intros ->. apply Z.div_mul. discriminate.
Qed.

Lemma addDays_regular (d : Z) :
  regular z d -> addDays z 1 (parse z d) = parse z (d + 1).
Proof.
  unfold regular, addDays, parse. intros ->. f_equal. lia.
Qed.

(** The loop ends within its fuel, whatever the zone does at midnight;
    the elapsed week days are among the week days; all of them have
    elapsed when the range ended before the reference, none when it
    starts at the reference or later. *)
Lemma walkIn_returns (to now : Z) (fuel : nat) :
  forall c wd wdp,
    (Z.to_nat ((to - c) / 60000 + 1) <= fuel)%nat ->
    exists k kp,
      walkIn z fuel to now c wd wdp = Some (wd + k, wdp + kp) /\
      0 <= kp <= k /\
      (to < now -> kp = k) /\
      (now <= c -> kp = 0).
Proof.
  induction fuel as [|fuel IH]; intros c wd wdp Hfuel.
  - assert (Hc : to < c).
    { destruct (Z.lt_ge_cases to c) as [H|H]; [exact H|].
      assert (0 <= (to - c) / 60000) by (apply Z.div_pos; lia). lia. }
    simpl. destruct (Z.leb_spec c to); [lia|].
    exists 0, 0. repeat split; try lia. f_equal. f_equal; lia.
  - simpl. destruct (Z.leb_spec c to) as [Hle|Hgt].
    + pose proof (addDays_later c) as Hstep.
      assert (Hf : (Z.to_nat ((to - addDays z 1 c) / 60000 + 1) <= fuel)%nat).
      { assert ((to - addDays z 1 c) / 60000 <= (to - c - 1 * 60000) / 60000)
          by (apply Z.div_le_mono; lia).
        replace (to - c - 1 * 60000) with (to - c + (-1) * 60000) in H by lia.
        rewrite Z.div_add in H by lia.
        assert (0 <= (to - c) / 60000) by (apply Z.div_pos; lia). lia. }
      destruct ((Zone.weekday z c <? 6) && (0 <? Zone.weekday z c)).
      * destruct (IH (addDays z 1 c) (wd + 1)
                    (if c <? now then wdp + 1 else wdp) Hf)
          as [k [kp [E [B [P N]]]]].
        rewrite E.
        destruct (Z.ltb_spec c now) as [Hb|Hb].
        -- exists (k + 1), (kp + 1). repeat split; try lia.
           f_equal. f_equal; lia.
        -- exists (k + 1), kp. repeat split; try lia.
           f_equal. f_equal; lia.
      * destruct (IH (addDays z 1 c) wd wdp Hf) as [k [kp [E [B [P N]]]]].
        rewrite E. exists k, kp. repeat split; try lia.
    + exists 0, 0. repeat split; try lia. f_equal. f_equal; lia.
Qed.

(** Where midnight exists on every day walked, the loop visits the days
    one by one: it counts the week days of the calendar, and as elapsed
    those whose midnight is before the reference. *)
Lemma walkIn_counts (to now : Z) (fuel : nat) :
  forall c wd wdp,
    (forall d, c <= d <= to -> regular z d) ->
    (Z.to_nat (to - c + 1) <= fuel)%nat ->
    walkIn z fuel (parse z to) now (parse z c) wd wdp =
    Some (wd + Spec.weekDaysInRange c to,
          wdp + Z.of_nat
                  (List.length
                     (filter (fun d => Spec.isWeekDay d && (parse z d <? now))
                        (Spec.calendarDays c to)))).
Proof.
  unfold Spec.weekDaysInRange.
  induction fuel as [|fuel IH]; intros c wd wdp Hreg Hfuel.
  - assert (Hc : to < c) by lia.
    simpl. rewrite parse_leb. destruct (Z.leb_spec c to); [lia|].
    rewrite ProjectorFacts.calendarDays_nil by exact Hc. simpl.
    f_equal. f_equal; lia.
  - simpl. rewrite parse_leb. destruct (Z.leb_spec c to) as [Hle|Hgt].
    + rewrite ProjectorFacts.calendarDays_cons by exact Hle. simpl.
      assert (Rc : regular z c) by (apply Hreg; lia).
      unfold Zone.weekday. rewrite (dayOf_regular c Rc).
      rewrite ProjectorFacts.weekday_test, (addDays_regular c Rc).
      destruct (Spec.isWeekDay c); simpl.
      * rewrite IH by (try lia; intros d Hd; apply Hreg; lia).
        destruct (parse z c <? now); simpl; f_equal; f_equal; lia.
      * rewrite IH by (try lia; intros d Hd; apply Hreg; lia).
        reflexivity.
    + rewrite ProjectorFacts.calendarDays_nil by exact Hgt. simpl.
      f_equal. f_equal; lia.
Qed.

Lemma elapsed_before_midnight (from to r : Z) :
  Z.of_nat
    (List.length
       (filter (fun d => Spec.isWeekDay d && (parse z d <? parse z r))
          (Spec.calendarDays from to))) =
  Spec.weekDaysElapsed from to r.
Proof.
  unfold Spec.weekDaysElapsed. do 2 f_equal.
  apply filter_ext_in. intros d _. now rewrite parse_ltb.
Qed.

(** The fuel the model gives covers one step a day of the range. *)
Lemma fuel_covers_days (from to : Z) :
  from < to ->
  (Z.to_nat (to - from + 1) <=
   Z.to_nat ((parse z to - parse z from) / 60000 + 1))%nat.
Proof.
  intros H. pose proof (parse_lt from to H) as P.
  assert (to - from <= (parse z to - parse z from) / 60000).
  { apply Z.div_le_lower_bound; lia. }
  lia.
Qed.

End InAZone.

(** The projector returns in any such zone; its counts are in order,
    all week days have elapsed for a range that ended before today, and
    none for a range whose first midnight is not before the
    reference. *)
Lemma addProjectionsIn_returns lo hi z now from to entries h e :
  within lo hi z ->
  from < to ->
  totals entries = Returned (h, e) ->
  exists wd wdp,
    addProjectionsIn z now from to entries =
      Returned
        (JsObject.set "projections"
           (Proj (computeProjections wd wdp h e)) entries) /\
    0 <= wdp <= wd /\
    (to < dayOf z now -> wdp = wd) /\
    ((if haveEntryToday entries then addDays z 1 (startOfDay z now)
      else startOfDay z now) <= parse z from -> wdp = 0).
Proof.
  intros Hz Hlt Ht. unfold addProjectionsIn.
  rewrite (parse_leb lo hi z Hz). destruct (Z.leb_spec to from); [lia|].
  destruct (walkIn_returns lo hi z Hz (parse z to)
              (if haveEntryToday entries
               then addDays z 1 (startOfDay z now) else startOfDay z now)
              (Z.to_nat ((parse z to - parse z from) / Moment.msPerMinute + 1))
              (parse z from) 0 0 (Nat.le_refl _))
    as [k [kp [E [B [P N]]]]].
  rewrite E, Ht. exists (0 + k), (0 + kp). split; [reflexivity|].
  split; [lia|]. split.
  - intros Hpast. rewrite P; [reflexivity|].
    assert (parse z to < startOfDay z now).
    { unfold startOfDay. pose proof (parse_lt lo hi z Hz to _ Hpast). lia. }
    pose proof (addDays_later lo hi z Hz (startOfDay z now)).
    destruct (haveEntryToday entries); lia.
  - intros Href. rewrite N; [reflexivity|exact Href].
Qed.

(** Where midnight exists on every day of the range and today, the
    counts are those of the calendar. *)
Lemma addProjectionsIn_counts lo hi z now from to entries h e :
  within lo hi z ->
  from < to ->
  (forall d, from <= d <= to -> regular z d) ->
  regular z (dayOf z now) ->
  totals entries = Returned (h, e) ->
  addProjectionsIn z now from to entries =
  Returned
    (JsObject.set "projections"
       (Proj (computeProjections
                (Spec.weekDaysInRange from to)
                (Spec.weekDaysElapsed from to
                   (if haveEntryToday entries then dayOf z now + 1
                    else dayOf z now))
                h e))
       entries).
Proof.
  intros Hz Hlt Hreg Htoday Ht. unfold addProjectionsIn.
  rewrite (parse_leb lo hi z Hz). destruct (Z.leb_spec to from); [lia|].
  rewrite (walkIn_counts lo hi z Hz) by
    (try exact Hreg; apply (fuel_covers_days lo hi z Hz), Hlt).
  rewrite Ht. simpl. do 4 f_equal.
  unfold startOfDay. rewrite (addDays_regular z _ Htoday).
  destruct (haveEntryToday entries);
    apply (elapsed_before_midnight lo hi z Hz).
Qed.

Lemma within_fixed (offset : Z) : within offset offset (fixed offset).
Proof.
  unfold within, fixed; simpl. repeat split; try lia.
Qed.

Lemma regular_fixed (offset day : Z) : regular (fixed offset) day.
Proof.
  unfold regular, toLocal, parse, fixed; simpl. lia.
Qed.

Lemma dayOf_fixed (offset day : Z) :
  dayOf (fixed offset)
    (Moment.startOfDay {| utcOffset := offset; today := day |} day) = day.
Proof.
  unfold dayOf, toLocal, fixed, Moment.startOfDay; simpl.
  replace (day * Moment.msPerDay - offset * Moment.msPerMinute +
           offset * Moment.msPerMinute) with (day * Moment.msPerDay) by lia.
  apply Z.div_mul. discriminate.
Qed.

(** A zone with one change of offset of less than a day. *)
Lemma within_oneChange (before after change : Z) :
  Z.max before after - Z.min before after < 1440 ->
  within (Z.min before after) (Z.max before after)
    (oneChange before after change).
Proof.
  intros H. unfold within, oneChange; simpl. split; [exact H|]. split.
  - intros t. destruct (t <? change); lia.
  - intros w. unfold Moment.msPerMinute.
    destruct (w - before * 60000 <? change); [lia|].
    destruct (change <=? w - after * 60000); lia.
Qed.

(** At a fixed offset the aggregator and the projector in a zone are the
    functions on day numbers. *)
Lemma enteredToday_fixed (c : clock) (e : entry) :
  enteredTodayIn (fixed (utcOffset c)) (utcOffset c)
    (Moment.startOfDay c (today c)) e = enteredToday c e.
Proof.
  unfold enteredTodayIn, enteredToday, startOfDay.
  destruct c as [off day]. cbn [utcOffset today].
  rewrite dayOf_fixed, (addDays_regular _ _ (regular_fixed off day)).
  reflexivity.
Qed.

Lemma find_ext {A : Type} (p q : A -> bool) (l : list A) :
  (forall a, p a = q a) -> find p l = find q l.
Proof.
  intros H. induction l as [|a l IH]; simpl; [reflexivity|].
  rewrite H, IH. reflexivity.
Qed.

Lemma aggregateResults_fixed (c : clock) entries cfg :
  aggregateResultsIn (fixed (utcOffset c)) (utcOffset c)
    (Moment.startOfDay c (today c)) entries cfg =
  aggregateResults c entries cfg.
Proof.
  unfold aggregateResultsIn, aggregateResults.
  rewrite (find_ext _ _ entries (enteredToday_fixed c)). reflexivity.
Qed.

Lemma addProjections_fixed (c : clock) from to entries :
  addProjectionsIn (fixed (utcOffset c)) (Moment.startOfDay c (today c))
    from to entries =
  addProjections c from to entries.
Proof.
  destruct c as [off day]. cbn [utcOffset today].
  destruct (Z.lt_ge_cases from to) as [Hlt|Hge].
  - destruct (totals entries) as [[h e]| |] eqn:T.
    + rewrite (addProjectionsIn_counts off off _ _ _ _ _ h e
                 (within_fixed off) Hlt
                 (fun d _ => regular_fixed off d)
                 (regular_fixed off _) T).
      rewrite dayOf_fixed.
      now rewrite (ProjectorFacts.addProjections_returns _ _ _ _ h e Hlt T).
    + unfold addProjectionsIn, addProjections.
      rewrite (parse_leb off off _ (within_fixed off)).
      destruct (to <=? from); [reflexivity|]. rewrite T.
      destruct (walkIn_returns off off _ (within_fixed off)
                  (parse (fixed off) to)
                  (if haveEntryToday entries
                   then addDays (fixed off) 1
                          (startOfDay (fixed off)
                             (Moment.startOfDay
                                {| utcOffset := off; today := day |} day))
                   else startOfDay (fixed off)
                          (Moment.startOfDay
                             {| utcOffset := off; today := day |} day))
                  _ (parse (fixed off) from) 0 0 (Nat.le_refl _))
        as [k [kp [E _]]].
      unfold Moment.msPerMinute in *. rewrite E.
      rewrite ProjectorFacts.walk_counts by lia. reflexivity.
    + unfold totals in T. destruct (JsObject.get "total" entries) as [[a|b|p]|];
        discriminate.
  - unfold addProjectionsIn, addProjections.
    rewrite (parse_leb off off _ (within_fixed off)).
    destruct (Z.leb_spec to from); [reflexivity|lia].
Qed.

End ZoneFacts.

Module ZoneResultFacts.
Import Zone ZoneFacts.
Local Open Scope string_scope.
Local Open Scope Z_scope.

Lemma get_haveEntryToday_aggregateResultsIn z off now entries cfg :
  JsObject.get "haveEntryToday" (aggregateResultsIn z off now entries cfg) =
  Some (Flag (existsb (enteredTodayIn z off now) entries)).
Proof.
  unfold aggregateResultsIn. rewrite <- AggregatorFacts.find_existsb.
  destruct (find (enteredTodayIn z off now) entries);
    apply ObjectFacts.get_set_same.
Qed.

Lemma get_total_aggregateResultsIn z off now entries cfg :
  JsObject.get "total" (aggregateResultsIn z off now entries cfg) =
  Some (Agg (total (JsObject.values (aggregated entries cfg)))).
Proof.
  unfold aggregateResultsIn.
  destruct (find (enteredTodayIn z off now) entries);
    rewrite ?(ObjectFacts.get_set_other "haveEntryToday" "total")
      by discriminate;
    apply ObjectFacts.get_set_same.
Qed.

Lemma get_project_aggregateResultsIn z off now entries cfg p :
  p <> "total" -> p <> "haveEntryToday" ->
  JsObject.get p (aggregateResultsIn z off now entries cfg) =
  option_map Agg (JsObject.get p (aggregated entries cfg)).
Proof.
  intros H1 H2. unfold aggregateResultsIn.
  destruct (find (enteredTodayIn z off now) entries);
    rewrite ?(ObjectFacts.get_set_other "haveEntryToday" p) by congruence;
    rewrite (ObjectFacts.get_set_other "total" p) by congruence;
    apply GroupFacts.get_mapValues.
Qed.

Lemma haveEntryToday_flag entries b :
  JsObject.get "haveEntryToday" entries = Some (Flag b) ->
  haveEntryToday entries = b.
Proof. unfold haveEntryToday. now intros ->. Qed.

(** Midnight of a day exists in a zone with one change when the change
    does not fall between the two readings of that midnight. *)
Lemma regular_oneChange before after change day :
  day * 86400000 - before * 60000 < change \/
  change <= day * 86400000 - after * 60000 /\
  change <= day * 86400000 - before * 60000 ->
  regular (oneChange before after change) day.
Proof.
  unfold regular, toLocal, parse, oneChange, Moment.msPerDay,
    Moment.msPerMinute; simpl.
  intros [H|[H1 H2]].
  - destruct (Z.ltb_spec (day * 86400000 - before * 60000) change); [|lia].
    destruct (Z.ltb_spec (day * 86400000 - before * 60000) change); lia.
  - destruct (Z.ltb_spec (day * 86400000 - before * 60000) change); [lia|].
    destruct (Z.leb_spec change (day * 86400000 - after * 60000)); [|lia].
    destruct (Z.ltb_spec (day * 86400000 - after * 60000) change); lia.
Qed.

End ZoneResultFacts.

(* ================================================================== *)
(** * The model at work *)
(* ================================================================== *)

Module Checks.
Local Open Scope string_scope.
Local Open Scope Z_scope.

Example floor_of_a_half : JsNum.floor 0.5 = 0%float.
Proof. reflexivity. Qed.

Example floor_of_minus_a_half : JsNum.floor (-0.5) = (-1)%float.
Proof. reflexivity. Qed.

Example floor_of_minus_three : JsNum.floor (-3) = (-3)%float.
Proof. reflexivity. Qed.

Example floor_of_a_large_fraction :
  JsNum.floor 0x1.ffffffffffffep+51 = 4503599627370495%float.
Proof. reflexivity. Qed.

Example floor_of_minus_zero : JsNum.floor (-0) = (-0)%float.
Proof. reflexivity. Qed.

Example of_Z_beyond_2_53 :
  JsNum.of_Z 9007199254740993 = 9007199254740992%float.
Proof. reflexivity. Qed.

Example index_keys :
  map JsObject.array_index ["0"; "10"; "01"; "4294967294"; "4294967295"; "1e3"; ""]
  = [Some 0; Some 10; None; Some 4294967294; None; None; None].
Proof. reflexivity. Qed.

Example keys_of_a_grouped_object :
  JsObject.keys
    (groupBy [Samples.entryOn 16923 60 "b"; Samples.entryOn 16923 60 "10";
              Samples.entryOn 16923 60 "a"; Samples.entryOn 16923 60 "9";
              Samples.entryOn 16924 60 "b"; Samples.entryOn 16924 60 "007"])
  = ["9"; "10"; "b"; "a"; "007"].
Proof. reflexivity. Qed.

Example no_entries :
  aggregateResults Samples.clk [] (Samples.cfgWith None) =
  [("total", Agg {| hours := 0; earnings := 0 |});
   ("haveEntryToday", Flag false)].
Proof. reflexivity. Qed.

Example an_entry_of_today :
  haveEntryToday
    (aggregateResults Samples.clk [Samples.entryOn 16925 60 "A"]
       (Samples.cfgWith None)) = true.
Proof. reflexivity. Qed.

Example monday_2016_05_02 :
  Moment.days_from_civil 2016 5 2 = 16923 /\
  Moment.civil_from_days 16923 = (2016, 5, 2) /\
  Moment.weekday 16923 = 1.
Proof. repeat split. Qed.

Example february_of_a_leap_year :
  Moment.format
    (Moment.endOfMonth
       {| utcOffset := 60; today := Moment.days_from_civil 2024 2 10 |})
  = "2024-02-29".
Proof. reflexivity. Qed.

Example ascending_is_sorted :
  Spec.ascending ["30"; "4"; "200"; "1"] = ["1"; "4"; "30"; "200"].
Proof. reflexivity. Qed.

End Checks.

Module ZoneChecks.
Import ZoneSamples.
Local Open Scope string_scope.
Local Open Scope Z_scope.

(** Los Angeles on the day the clocks go forward: midnight is at 08:00
    UTC, the next one 23 hours later, and an entry stamped 00:30 UTC of
    that day is not of today, as it would be at the fixed offset -420. *)
Example los_angeles_day_of_the_change :
  Zone.startOfDay losAngeles sundayInLosAngeles =
    16873 * 86400000 + 8 * 3600000 /\
  Zone.addDays losAngeles 1 (Zone.startOfDay losAngeles sundayInLosAngeles) =
    16874 * 86400000 + 7 * 3600000 /\
  enteredTodayIn losAngeles (-420) sundayInLosAngeles
    {| Date := 16873 * 86400000 + 30 * 60000; DurationSeconds := 3600;
       ProjectName := "A"; TaskName := "dev" |} = false /\
  enteredToday {| utcOffset := -420; today := 16873 |}
    {| Date := 16873 * 86400000 + 30 * 60000; DurationSeconds := 3600;
       ProjectName := "A"; TaskName := "dev" |} = true.
Proof.
  split; [vm_compute; reflexivity|]. split; [vm_compute; reflexivity|].
  split; vm_compute; reflexivity.
Qed.

(** Sao Paulo on the day midnight is skipped: the start of the day is
    01:00, and a day on it is 01:00 of Monday. *)
Example sao_paulo_day_without_midnight :
  Zone.toLocal saoPaulo (Zone.startOfDay saoPaulo sundayNoon) =
    17090 * 86400000 + 3600000 /\
  Zone.toLocal saoPaulo
    (Zone.addDays saoPaulo 1 (Zone.startOfDay saoPaulo sundayNoon)) =
    17091 * 86400000 + 3600000.
Proof. split; vm_compute; reflexivity. Qed.

(** Run on that Sunday with an entry of the day, a range that starts on
    the Monday has its first day counted as elapsed. *)
Example range_begun_by_an_hour :
  JsObject.get "haveEntryToday"
    (aggregateResultsIn saoPaulo (-120) sundayNoon sundayWork Samples.tenCfg)
    = Some (Flag true) /\
  addProjectionsIn saoPaulo sundayNoon 17091 17095
    (aggregateResultsIn saoPaulo (-120) sundayNoon sundayWork Samples.tenCfg)
  = Returned
      (JsObject.set "projections"
         (Proj {| weekDays := 5; weekDaysPast := 1;
                  percentComplete := 20;
                  avgEarningsPerDay := 50; avgHoursPerDay := 5;
                  estimatedEarnings := 250; estimatedHours := 25 |})
         (aggregateResultsIn saoPaulo (-120) sundayNoon sundayWork
            Samples.tenCfg)).
Proof. split; vm_compute; reflexivity. Qed.

(** The week from Saturday 2016-10-15 to Friday 2016-10-21 in Sao Paulo
    has four week days counted: the Friday is not visited. *)
Example week_of_four_week_days :
  exists p,
    addProjectionsIn saoPaulo wednesdayMorning 17089 17095
      (aggregateResultsIn saoPaulo (-180) wednesdayMorning octoberWork
         Samples.tenCfg)
    = Returned
        (JsObject.set "projections" (Proj p)
           (aggregateResultsIn saoPaulo (-180) wednesdayMorning octoberWork
              Samples.tenCfg)) /\
    weekDays p = 4.
Proof. eexists. split; vm_compute; reflexivity. Qed.

(** Run on that Friday, the range 2016-10-10 to 2016-10-21 has the same
    nine week days elapsed with and without an entry of the day. *)
Example entry_of_a_day_not_visited :
  exists p p',
    addProjectionsIn saoPaulo fridayNoon 17084 17095
      (aggregateResultsIn saoPaulo (-120) fridayNoon
         (octoberWork ++ fridayWork) Samples.tenCfg)
    = Returned
        (JsObject.set "projections" (Proj p)
           (aggregateResultsIn saoPaulo (-120) fridayNoon
              (octoberWork ++ fridayWork) Samples.tenCfg)) /\
    addProjectionsIn saoPaulo fridayNoon 17084 17095
      (aggregateResultsIn saoPaulo (-120) fridayNoon octoberWork
         Samples.tenCfg)
    = Returned
        (JsObject.set "projections" (Proj p')
           (aggregateResultsIn saoPaulo (-120) fridayNoon octoberWork
              Samples.tenCfg)) /\
    JsObject.get "haveEntryToday"
      (aggregateResultsIn saoPaulo (-120) fridayNoon
         (octoberWork ++ fridayWork) Samples.tenCfg) = Some (Flag true) /\
    JsObject.get "haveEntryToday"
      (aggregateResultsIn saoPaulo (-120) fridayNoon octoberWork
         Samples.tenCfg) = Some (Flag false) /\
    weekDaysPast p = 9 /\ weekDaysPast p' = 9.
Proof.
  do 2 eexists.
  split; [vm_compute; reflexivity|]. split; [vm_compute; reflexivity|].
  split; [vm_compute; reflexivity|]. split; [vm_compute; reflexivity|].
  split; reflexivity.
Qed.

End ZoneChecks.

(* ================================================================== *)
(** * The aggregator: properties *)
(* ================================================================== *)

Local Open Scope string_scope.
Local Open Scope Z_scope.

(** C1 (as amended): the total is the elementwise sum of the per-project
    aggregates in the order the groups are visited, which is the order
    of enumeration of the grouped object: the project names that are
    array indices first, in ascending numeric order, then the other
    names in insertion order; when no project name is an array index,
    this is insertion order. *)
Theorem total_sums_groups_in_visit_order c entries cfg :
  JsObject.get "total" (aggregateResults c entries cfg) =
    Some (Agg (total (Spec.aggregatesAlong cfg entries
                        (Spec.visitOrder entries))))
  /\ (Forall (fun e => JsObject.array_index (ProjectName e) = None) entries ->
      JsObject.get "total" (aggregateResults c entries cfg) =
        Some (Agg (total (Spec.aggregatesAlong cfg entries
                            (Spec.insertionOrder entries))))).
Proof.
  rewrite AggregatorFacts.get_total_aggregateResults,
    GroupFacts.values_aggregated.
  split.
  - now rewrite OrderFacts.keys_groupBy_visitOrder.
  - intros H. now rewrite (GroupFacts.keys_groupBy_insertionOrder entries H).
Qed.

Lemma total_sums_groups_in_visit_order_witness :
  Forall (fun e => JsObject.array_index (ProjectName e) = None)
    Samples.withTotal /\
  JsObject.get "total"
    (aggregateResults Samples.clk Samples.withTotal (Samples.cfgWith None)) =
  Some (Agg (total (Spec.aggregatesAlong (Samples.cfgWith None)
                      Samples.withTotal
                      (Spec.insertionOrder Samples.withTotal)))).
Proof.
  assert (H : Forall (fun e => JsObject.array_index (ProjectName e) = None)
                Samples.withTotal).
  { repeat constructor. }
  split; [exact H|].
  exact (proj2 (total_sums_groups_in_visit_order Samples.clk Samples.withTotal
                  (Samples.cfgWith None)) H).
Defined.

(** C1 (as stated) fails: with the projects "2", "3", "1" fetched in that
    order the groups are visited as "1", "2", "3", and the earnings
    add up to 2^53, while the sum in insertion order is 2^53 + 2. *)
Lemma total_not_in_insertion_order :
  JsObject.keys (aggregated Samples.numbered Samples.numberedCfg) =
    ["1"; "2"; "3"] /\
  Spec.visitOrder Samples.numbered = ["1"; "2"; "3"] /\
  Spec.insertionOrder Samples.numbered = ["2"; "3"; "1"] /\
  JsObject.get "total"
    (aggregateResults Samples.clk Samples.numbered Samples.numberedCfg) =
    Some (Agg {| hours := 3; earnings := 9007199254740992 |}) /\
  total (Spec.aggregatesAlong Samples.numberedCfg Samples.numbered
           (Spec.insertionOrder Samples.numbered)) =
    {| hours := 3; earnings := 9007199254740994 |} /\
  JsObject.get "total"
    (aggregateResults Samples.clk Samples.numbered Samples.numberedCfg) <>
    Some (Agg (total (Spec.aggregatesAlong Samples.numberedCfg Samples.numbered
                        (Spec.insertionOrder Samples.numbered)))).
Proof.
  assert (A : JsObject.get "total"
    (aggregateResults Samples.clk Samples.numbered Samples.numberedCfg) =
    Some (Agg {| hours := 3; earnings := 9007199254740992 |}))
    by (vm_compute; reflexivity).
  assert (B : total (Spec.aggregatesAlong Samples.numberedCfg Samples.numbered
           (Spec.insertionOrder Samples.numbered)) =
    {| hours := 3; earnings := 9007199254740994 |})
    by (vm_compute; reflexivity).
  repeat split; try assumption; try reflexivity.
  rewrite A, B. intros [= E].
Qed.

(** C3 (as amended): each project group is aggregated to
    hours = (sum of durationSeconds) / 60 / 60 and
    earnings = hours * rate, the rate being rates[project] when that read
    is truthy, else rates._default when that read is truthy, else 0; and
    one entry of 3600 seconds on "A" with rates {A: 10} gives
    {hours: 1, earnings: 10} under "A". *)
Theorem project_hours_and_earnings entries cfg p :
  In p (map ProjectName entries) ->
  (exists a,
     JsObject.get p (aggregated entries cfg) = Some a /\
     hours a = (summed (Spec.group entries p) / 60 / 60)%float /\
     earnings a = (hours a * JsNum.ToNumber (rate cfg p))%float) /\
  (rates cfg = None -> rate cfg p = JsNum.Number 0) /\
  (forall r, rates cfg = Some r ->
     rate cfg p =
       if JsNum.truthy (read r p) then read r p
       else if JsNum.truthy (read r "_default") then read r "_default"
       else JsNum.Number 0) /\
  (forall c date task,
     JsObject.get "A"
       (aggregateResults c
          [{| Date := date; DurationSeconds := 3600;
              ProjectName := "A"; TaskName := task |}]
          {| uname := uname cfg; pword := pword cfg;
             rates := Some [("A", 10%float)] |}) =
     Some (Agg {| hours := 1; earnings := 10 |})).
Proof.
  intros Hp. repeat split.
  - exists (aggregateProject cfg (Spec.group entries p) p).
    split; [apply GroupFacts.get_aggregated, Hp|].
    split; [reflexivity|]. simpl. apply FloatFacts.mul_comm.
  - intros E. unfold rate. now rewrite E.
  - intros r E. unfold rate. now rewrite E.
  - intros c date task.
    rewrite AggregatorFacts.get_project_aggregateResults by discriminate.
    reflexivity.
Qed.

Lemma project_hours_and_earnings_witness :
  In "A" (map ProjectName Samples.fiveSeconds) /\
  exists a,
    JsObject.get "A" (aggregated Samples.fiveSeconds Samples.zeroRateCfg)
      = Some a /\
    hours a = (summed (Spec.group Samples.fiveSeconds "A") / 60 / 60)%float /\
    earnings a =
      (hours a * JsNum.ToNumber (rate Samples.zeroRateCfg "A"))%float.
Proof.
  assert (H : In "A" (map ProjectName Samples.fiveSeconds)) by (left; reflexivity).
  split; [exact H|].
  exact (proj1 (project_hours_and_earnings Samples.fiveSeconds
                  Samples.zeroRateCfg "A" H)).
Defined.

(** C3 (as stated) fails: five seconds on a project whose configured
    rate is 0, with a default rate of 50, give hours 5/60/60, which is
    not the binary64 quotient 5/3600, and earnings at the default rate,
    not at the rate 0 that is present. *)
Lemma rate_zero_falls_to_default :
  JsObject.get "A" (aggregated Samples.fiveSeconds Samples.zeroRateCfg) =
    Some {| hours := 0x1.6c16c16c16c16p-10;
            earnings := 0x1.1c71c71c71c71p-4 |} /\
  Spec.aggregateOf Samples.zeroRateCfg
    (Spec.group Samples.fiveSeconds "A") "A" =
    {| hours := 0x1.6c16c16c16c17p-10; earnings := 0 |} /\
  JsObject.get "A" (aggregated Samples.fiveSeconds Samples.zeroRateCfg) <>
    Some (Spec.aggregateOf Samples.zeroRateCfg
            (Spec.group Samples.fiveSeconds "A") "A").
Proof.
  assert (A : JsObject.get "A"
                (aggregated Samples.fiveSeconds Samples.zeroRateCfg) =
    Some {| hours := 0x1.6c16c16c16c16p-10;
            earnings := 0x1.1c71c71c71c71p-4 |})
    by (vm_compute; reflexivity).
  assert (B : Spec.aggregateOf Samples.zeroRateCfg
    (Spec.group Samples.fiveSeconds "A") "A" =
    {| hours := 0x1.6c16c16c16c17p-10; earnings := 0 |})
    by (vm_compute; reflexivity).
  repeat split; try assumption.
  rewrite A, B. intros [= E1 E2].
Qed.

(** C6 (as amended): the flag the aggregator stores under haveEntryToday
    is true exactly when some entry's timestamp, less the offset in
    minutes, lies in the closed interval from the start of today to that
    instant moved by one calendar day, which is the same wall-clock time
    of the next day; this is the 24-hour window starting at local
    midnight whenever that instant is 24 hours after the start of
    today. *)
Theorem haveEntryToday_iff_entry_within_today z utcOffset now entries cfg :
  exists b,
    JsObject.get "haveEntryToday"
      (aggregateResultsIn z utcOffset now entries cfg) = Some (Flag b) /\
    (b = true <->
     exists e, In e entries /\ Spec.withinLocalDay z utcOffset now e) /\
    (Zone.addDays z 1 (Zone.startOfDay z now) =
       Zone.startOfDay z now + Moment.msPerDay ->
     (b = true <->
      exists e, In e entries /\ Spec.withinToday z utcOffset now e)).
Proof.
  exists (existsb (enteredTodayIn z utcOffset now) entries).
  split; [apply ZoneResultFacts.get_haveEntryToday_aggregateResultsIn|].
  assert (L : existsb (enteredTodayIn z utcOffset now) entries = true <->
              exists e, In e entries /\ Spec.withinLocalDay z utcOffset now e).
  { rewrite existsb_exists.
    split; intros [e [He H]]; exists e; (split; [exact He|]); revert H;
      unfold enteredTodayIn, Spec.withinLocalDay, Moment.msPerMinute;
      rewrite andb_true_iff, !Z.leb_le; lia. }
  split; [exact L|].
  intros E. rewrite L.
  split; intros [e [He H]]; exists e; (split; [exact He|]); revert H;
    unfold Spec.withinLocalDay, Spec.withinToday; cbv zeta; rewrite E;
    unfold Moment.msPerDay; lia.
Qed.

Lemma haveEntryToday_iff_entry_within_today_witness :
  exists b,
    JsObject.get "haveEntryToday"
      (aggregateResultsIn ZoneSamples.losAngeles (-420)
         ZoneSamples.mondayInLosAngeles ZoneSamples.mondayWork
         Samples.tenCfg) = Some (Flag b) /\
    (b = true <->
     exists e,
       In e ZoneSamples.mondayWork /\
       Spec.withinToday ZoneSamples.losAngeles (-420)
         ZoneSamples.mondayInLosAngeles e).
Proof.
  destruct (haveEntryToday_iff_entry_within_today ZoneSamples.losAngeles
              (-420) ZoneSamples.mondayInLosAngeles ZoneSamples.mondayWork
              Samples.tenCfg) as [b [Hb [_ H24]]].
  exists b. split; [exact Hb|]. apply H24. vm_compute. reflexivity.
Defined.

(** C6 (as stated) fails on a day of 23 hours: in Los Angeles on Sunday
    2016-03-13, with the offset -420 read that morning, an entry stamped
    2016-03-14 00:30 UTC is 23 hours and a half after local midnight,
    inside the 24-hour window starting at local midnight, and the flag
    is false: the program's window ends at the next local midnight, 23
    hours after the first. *)
Lemma entry_of_the_24th_hour_not_flagged :
  In ZoneSamples.lateEntry [ZoneSamples.lateEntry] /\
  Spec.withinToday ZoneSamples.losAngeles (-420)
    ZoneSamples.sundayInLosAngeles ZoneSamples.lateEntry /\
  JsObject.get "haveEntryToday"
    (aggregateResultsIn ZoneSamples.losAngeles (-420)
       ZoneSamples.sundayInLosAngeles [ZoneSamples.lateEntry]
       Samples.tenCfg) = Some (Flag false) /\
  Zone.startOfDay ZoneSamples.losAngeles ZoneSamples.sundayInLosAngeles =
    16873 * 86400000 + 8 * 3600000 /\
  Zone.addDays ZoneSamples.losAngeles 1
    (Zone.startOfDay ZoneSamples.losAngeles ZoneSamples.sundayInLosAngeles) =
    16873 * 86400000 + 8 * 3600000 + 23 * 3600000.
Proof.
  split; [left; reflexivity|].
  split; [vm_compute; split; discriminate|].
  split; [vm_compute; reflexivity|].
  split; vm_compute; reflexivity.
Qed.

(** C10: when some entry's project is named total, an aggregate is
    computed for that project, but the value the result holds under the
    key total is the grand total, and nothing else is held under that
    key: the project's own aggregate is not in the result. *)
Theorem total_key_holds_grand_total c entries cfg :
  In "total" (map ProjectName entries) ->
  JsObject.get "total" (aggregated entries cfg) =
    Some (aggregateProject cfg (Spec.group entries "total") "total") /\
  JsObject.get "total" (aggregateResults c entries cfg) =
    Some (Agg (total (JsObject.values (aggregated entries cfg)))) /\
  forall v, In ("total", v) (aggregateResults c entries cfg) ->
    v = Agg (total (JsObject.values (aggregated entries cfg))).
Proof.
  intros H. split; [apply GroupFacts.get_aggregated, H|].
  split; [apply AggregatorFacts.get_total_aggregateResults|].
  intros v Hv.
  apply AggregatorFacts.In_get in Hv;
    [|apply AggregatorFacts.NoDup_keys_aggregateResults].
  rewrite AggregatorFacts.get_total_aggregateResults in Hv. congruence.
Qed.

Lemma total_key_holds_grand_total_witness :
  JsObject.get "total" (aggregated Samples.withTotal (Samples.cfgWith None)) =
    Some {| hours := 1; earnings := 0 |} /\
  aggregateResults Samples.clk Samples.withTotal (Samples.cfgWith None) =
    [("total", Agg {| hours := 3; earnings := 0 |});
     ("B", Agg {| hours := 2; earnings := 0 |});
     ("haveEntryToday", Flag false)] /\
  forall v,
    In ("total", v)
      (aggregateResults Samples.clk Samples.withTotal (Samples.cfgWith None)) ->
    v = Agg (total (JsObject.values
                      (aggregated Samples.withTotal (Samples.cfgWith None)))).
Proof.
  split; [vm_compute; reflexivity|].
  split; [vm_compute; reflexivity|].
  apply (total_key_holds_grand_total Samples.clk Samples.withTotal
           (Samples.cfgWith None)).
  left. reflexivity.
Defined.

(** C8 (as amended): with durations >= 0 and configured rates >= 0,
    every aggregate of the result, the total included, has hours >= 0
    and earnings that are never negative: they are >= 0 or NaN; and the
    earnings of a project are >= 0 whenever its hours and its rate are
    finite numbers. *)
Theorem aggregates_never_negative c entries cfg :
  Forall (fun e => JsNum.nonneg (DurationSeconds e) = true) entries ->
  (forall r, rates cfg = Some r ->
             Forall (fun kv => JsNum.nonneg (snd kv) = true) r) ->
  forall k a,
    JsObject.get k (aggregateResults c entries cfg) = Some (Agg a) ->
    JsNum.nonneg (hours a) = true /\
    (JsNum.nonneg (earnings a) = true \/ JsNum.isNaN (earnings a) = true) /\
    (k <> "total" ->
     JsNum.isFinite (hours a) = true ->
     (exists x, rate cfg k = JsNum.Number x /\ JsNum.isFinite x = true) ->
     JsNum.nonneg (earnings a) = true).
Proof.
  intros Hd Hr k a Hk.
  cut (neverNegative a /\
       (k <> "total" ->
        JsNum.isFinite (hours a) = true ->
        (exists x, rate cfg k = JsNum.Number x /\ JsNum.isFinite x = true) ->
        JsNum.nonneg (earnings a) = true)).
  { unfold neverNegative. tauto. }
  destruct (string_dec k "total") as [->|Ht].
  - split; [|congruence].
    rewrite AggregatorFacts.get_total_aggregateResults in Hk.
    injection Hk as <-.
    apply SignFacts.total_neverNegative.
    rewrite GroupFacts.values_aggregated. unfold Spec.aggregatesAlong.
    apply Forall_map, Forall_forall. intros p _.
    apply SignFacts.aggregateProject_neverNegative;
      [apply SignFacts.group_durations_nonneg, Hd|exact Hr].
  - destruct (string_dec k "haveEntryToday") as [->|Hh].
    + rewrite AggregatorFacts.get_haveEntryToday_aggregateResults in Hk.
      discriminate.
    + rewrite AggregatorFacts.get_project_aggregateResults in Hk
        by assumption.
      unfold aggregated in Hk.
      rewrite GroupFacts.get_mapValues, GroupFacts.get_groupBy in Hk.
      destruct (Spec.group entries k) as [|i items] eqn:G; [discriminate|].
      simpl in Hk. injection Hk as <-. rewrite <- G.
      pose proof (SignFacts.group_durations_nonneg entries k Hd) as Hg.
      split.
      * apply SignFacts.aggregateProject_neverNegative; assumption.
      * intros _ Fh [x [E Fx]].
        apply (SignFacts.aggregateProject_finite cfg _ k x); assumption.
Qed.

Lemma aggregates_never_negative_witness :
  JsObject.get "A"
    (aggregateResults Samples.clk Samples.fiveSeconds Samples.zeroRateCfg) =
    Some (Agg {| hours := 0x1.6c16c16c16c16p-10;
                 earnings := 0x1.1c71c71c71c71p-4 |}) /\
  JsNum.nonneg 0x1.6c16c16c16c16p-10 = true /\
  JsNum.nonneg 0x1.1c71c71c71c71p-4 = true.
Proof.
  assert (G : JsObject.get "A"
    (aggregateResults Samples.clk Samples.fiveSeconds Samples.zeroRateCfg) =
    Some (Agg {| hours := 0x1.6c16c16c16c16p-10;
                 earnings := 0x1.1c71c71c71c71p-4 |}))
    by (vm_compute; reflexivity).
  assert (D : Forall (fun e => JsNum.nonneg (DurationSeconds e) = true)
                Samples.fiveSeconds) by (repeat constructor).
  assert (R : forall r, rates Samples.zeroRateCfg = Some r ->
                Forall (fun kv => JsNum.nonneg (snd kv) = true) r).
  { intros r E. injection E as <-. repeat constructor. }
  destruct (aggregates_never_negative Samples.clk Samples.fiveSeconds
              Samples.zeroRateCfg D R "A" _ G) as [Hh [_ He]].
  split; [exact G|]. split; [exact Hh|].
  apply He.
  - discriminate.
  - reflexivity.
  - exists 50%float. split; reflexivity.
Defined.

(** C8 (as stated) fails: two entries of the largest binary64 number of
    seconds (an integer) on one project add up to Infinity hours, and
    with no rate configured the earnings are 0 * Infinity, which is NaN
    and so not >= 0. *)
Lemma overflowing_hours_give_NaN_earnings :
  Forall (fun e => JsNum.nonneg (DurationSeconds e) = true /\
                   JsNum.floor (DurationSeconds e) = DurationSeconds e)
    Samples.huge /\
  rates (Samples.cfgWith None) = None /\
  aggregateResults Samples.clk Samples.huge (Samples.cfgWith None) =
    [("A", Agg {| hours := infinity; earnings := nan |});
     ("total", Agg {| hours := infinity; earnings := nan |});
     ("haveEntryToday", Flag false)] /\
  JsNum.nonneg nan = false.
Proof.
  split; [repeat constructor|].
  split; [reflexivity|]. split; vm_compute; reflexivity.
Qed.

(** The same happens, without any overflow, for a project named after a
    member that every object inherits, here with an empty rates object:
    [config.rates["constructor"]] is a function, and the product is
    NaN. *)
Example inherited_member_gives_NaN_earnings :
  aggregateResults Samples.clk
    [Samples.entryOn 16924 3600 "constructor"] (Samples.cfgWith (Some [])) =
  [("constructor", Agg {| hours := 1; earnings := nan |});
   ("total", Agg {| hours := 1; earnings := nan |});
   ("haveEntryToday", Flag false)].
Proof. vm_compute. reflexivity. Qed.

(* ================================================================== *)
(** * The projector: properties *)
(* ================================================================== *)

(** C4 (as amended): for a range with fromDate < toDate, in a zone where
    local midnight exists on every day of the range and on today, the
    projector counts weekDaysInRange as the days from fromDate to toDate
    inclusive whose weekday index is neither 0 nor 6, and
    weekDaysElapsed as those of them strictly before the reference:
    today, or tomorrow when the flag haveEntryToday is true. *)
Theorem week_day_counts lo hi z now from to entries b :
  Zone.within lo hi z ->
  from < to ->
  (forall d, from <= d <= to -> Zone.regular z d) ->
  Zone.regular z (Zone.dayOf z now) ->
  JsObject.get "total" entries <> None ->
  JsObject.get "haveEntryToday" entries = Some (Flag b) ->
  exists p,
    addProjectionsIn z now from to entries =
      Returned (JsObject.set "projections" (Proj p) entries) /\
    weekDays p = Spec.weekDaysInRange from to /\
    weekDaysPast p =
      Spec.weekDaysElapsed from to
        (if b then Zone.dayOf z now + 1 else Zone.dayOf z now).
Proof.
  intros Hz Hlt Hreg Htoday Ht Hb.
  destruct (ProjectorFacts.totals_returned entries Ht) as [h [e Hhe]].
  eexists. split;
    [apply (ZoneFacts.addProjectionsIn_counts lo hi); eassumption|].
  rewrite (ZoneResultFacts.haveEntryToday_flag entries b Hb).
  split; reflexivity.
Qed.

Lemma week_day_counts_witness :
  exists p,
    addProjectionsIn ZoneSamples.losAngeles ZoneSamples.sundayInLosAngeles
      16871 16875
      (aggregateResultsIn ZoneSamples.losAngeles (-420)
         ZoneSamples.sundayInLosAngeles ZoneSamples.marchWork Samples.tenCfg) =
    Returned
      (JsObject.set "projections" (Proj p)
         (aggregateResultsIn ZoneSamples.losAngeles (-420)
            ZoneSamples.sundayInLosAngeles ZoneSamples.marchWork
            Samples.tenCfg)) /\
    weekDays p = 3 /\ weekDaysPast p = 1.
Proof.
  assert (W : Zone.within (Z.min (-480) (-420)) (Z.max (-480) (-420))
                ZoneSamples.losAngeles).
  { apply ZoneFacts.within_oneChange. reflexivity. }
  assert (R : forall d, 16871 <= d <= 16875 ->
                        Zone.regular ZoneSamples.losAngeles d).
  { intros d Hd. apply ZoneResultFacts.regular_oneChange.
    destruct (Z.le_gt_cases d 16873); [left|right]; lia. }
  destruct (week_day_counts _ _ ZoneSamples.losAngeles
              ZoneSamples.sundayInLosAngeles 16871 16875
              (aggregateResultsIn ZoneSamples.losAngeles (-420)
                 ZoneSamples.sundayInLosAngeles ZoneSamples.marchWork
                 Samples.tenCfg) false W ltac:(lia) R)
    as [p [Hp [H1 H2]]].
  - apply R. vm_compute. split; discriminate.
  - vm_compute. discriminate.
  - vm_compute. reflexivity.
  - exists p. split; [exact Hp|]. split.
    + rewrite H1. reflexivity.
    + rewrite H2. reflexivity.
Defined.

(** C4 (as stated) fails where a change of the clocks skips local
    midnight: in Sao Paulo, for 2016-10-10 to 2016-10-21 (10 week days)
    and run on Wednesday 2016-10-12, the walk leaves Sunday 2016-10-16
    at 01:00, stays at 01:00 on the days after, and is past the parsed
    toDate on Friday 2016-10-21, which is not counted: the projection
    holds 9 week days, and with them percentComplete 22 and
    estimatedEarnings 450. *)
Lemma last_day_lost_after_skipped_midnight :
  17084 < 17095 /\
  addProjectionsIn ZoneSamples.saoPaulo ZoneSamples.wednesdayMorning
    17084 17095
    (aggregateResultsIn ZoneSamples.saoPaulo (-180)
       ZoneSamples.wednesdayMorning ZoneSamples.octoberWork Samples.tenCfg) =
  Returned
    [("A", Agg {| hours := 10; earnings := 100 |});
     ("total", Agg {| hours := 10; earnings := 100 |});
     ("haveEntryToday", Flag false);
     ("projections",
      Proj {| weekDays := 9; weekDaysPast := 2; percentComplete := 22;
              avgEarningsPerDay := 50; avgHoursPerDay := 5;
              estimatedEarnings := 450; estimatedHours := 45 |})] /\
  Spec.weekDaysInRange 17084 17095 = 10 /\
  Zone.toLocal ZoneSamples.saoPaulo (Zone.parse ZoneSamples.saoPaulo 17090) =
    17090 * 86400000 + 3600000.
Proof.
  split; [lia|]. split; [vm_compute; reflexivity|].
  split; vm_compute; reflexivity.
Qed.

(** C2 (as amended): with fromDate < toDate, every field of the attached
    projection follows the formula of the specification on the two
    counts the projection holds and the total of the result,
    percentComplete being floor((weekDaysElapsed / weekDaysInRange) *
    100) with the quotient taken first, all in binary64; 5 week days in
    range, 2 elapsed and total earnings 100 give avgEarningsPerDay 50,
    estimatedEarnings 250, percentComplete 40; and where local midnight
    exists on every day of the range and today, the two counts are the
    week days of the range and those of them before the reference. *)
Theorem projection_formulas lo hi z now from to entries a b :
  Zone.within lo hi z ->
  from < to ->
  JsObject.get "total" entries = Some (Agg a) ->
  exists p,
    addProjectionsIn z now from to entries =
      Returned (JsObject.set "projections" (Proj p) entries) /\
    let inRange := JsNum.of_Z (weekDays p) in
    let elapsed := JsNum.of_Z (weekDaysPast p) in
    (percentComplete p = JsNum.floor (elapsed / inRange * 100) /\
     avgEarningsPerDay p = JsNum.floor (earnings a / elapsed) /\
     avgHoursPerDay p = hours a / elapsed /\
     estimatedEarnings p = JsNum.floor (avgEarningsPerDay p * inRange) /\
     estimatedHours p = inRange * (hours a / elapsed))%float /\
    (weekDays p = 5 -> weekDaysPast p = 2 -> earnings a = 100%float ->
     avgEarningsPerDay p = 50%float /\
     estimatedEarnings p = 250%float /\
     percentComplete p = 40%float) /\
    ((forall d, from <= d <= to -> Zone.regular z d) ->
     Zone.regular z (Zone.dayOf z now) ->
     JsObject.get "haveEntryToday" entries = Some (Flag b) ->
     weekDays p = Spec.weekDaysInRange from to /\
     weekDaysPast p =
       Spec.weekDaysElapsed from to
         (if b then Zone.dayOf z now + 1 else Zone.dayOf z now)).
Proof.
  intros Hz Hlt Ht.
  assert (T : totals entries = Returned (hours a, earnings a)).
  { unfold totals. now rewrite Ht. }
  destruct (ZoneFacts.addProjectionsIn_returns lo hi z now from to entries
              _ _ Hz Hlt T) as [wd [wdp [E _]]].
  eexists. split; [exact E|].
  cbv zeta. split; [repeat split|]. split.
  - simpl. intros -> -> ->. repeat split.
  - intros Hreg Htoday Hb.
    rewrite (ZoneFacts.addProjectionsIn_counts lo hi z now from to entries
               _ _ Hz Hlt Hreg Htoday T) in E.
    rewrite (ZoneResultFacts.haveEntryToday_flag entries b Hb) in E.
    injection E as E.
    apply (f_equal (JsObject.get "projections")) in E.
    rewrite !ObjectFacts.get_set_same in E. injection E as E1 E2 _ _ _ _ _.
    simpl. split; congruence.
Qed.

Lemma projection_formulas_witness :
  exists p,
    addProjectionsIn ZoneSamples.losAngeles ZoneSamples.wednesdayInLosAngeles
      16923 16927
      (aggregateResultsIn ZoneSamples.losAngeles (-420)
         ZoneSamples.wednesdayInLosAngeles Samples.worked Samples.tenCfg) =
    Returned
      (JsObject.set "projections" (Proj p)
         (aggregateResultsIn ZoneSamples.losAngeles (-420)
            ZoneSamples.wednesdayInLosAngeles Samples.worked
            Samples.tenCfg)) /\
    weekDays p = 5 /\ weekDaysPast p = 2 /\
    avgEarningsPerDay p = 50%float /\
    estimatedEarnings p = 250%float /\
    percentComplete p = 40%float.
Proof.
  assert (Ht : JsObject.get "total"
                 (aggregateResultsIn ZoneSamples.losAngeles (-420)
                    ZoneSamples.wednesdayInLosAngeles Samples.worked
                    Samples.tenCfg) =
               Some (Agg {| hours := 10; earnings := 100 |}))
    by (vm_compute; reflexivity).
  assert (W : Zone.within (Z.min (-480) (-420)) (Z.max (-480) (-420))
                ZoneSamples.losAngeles).
  { apply ZoneFacts.within_oneChange. reflexivity. }
  assert (Hlt : 16923 < 16927) by lia.
  destruct (projection_formulas _ _ ZoneSamples.losAngeles
              ZoneSamples.wednesdayInLosAngeles 16923 16927
              _ _ false W Hlt Ht)
    as [p [Hp [_ [Hs Hc]]]].
  exists p. split; [exact Hp|].
  assert (Hw : weekDays p = 5 /\ weekDaysPast p = 2).
  { destruct Hc as [H1 H2].
    - intros d Hd. apply ZoneResultFacts.regular_oneChange. right. lia.
    - apply ZoneResultFacts.regular_oneChange. right.
      vm_compute. split; discriminate.
    - vm_compute. reflexivity.
    - rewrite H1, H2. split; vm_compute; reflexivity. }
  destruct Hw as [H5 H2]. split; [exact H5|]. split; [exact H2|].
  apply Hs; [exact H5 | exact H2 | reflexivity].
Defined.

(** C2 (as stated) fails for percentComplete: with 50 week days in range
    and 29 elapsed the program stores 57, the floor of (29/50)*100 in
    binary64, where floor(100 * 29 / 50) is 58. *)
Lemma percentComplete_one_below :
  16923 < 16990 /\
  (exists p,
     addProjections Samples.fridayClk 16923 16990
       (aggregateResults Samples.fridayClk Samples.worked Samples.tenCfg) =
     Returned
       (JsObject.set "projections" (Proj p)
          (aggregateResults Samples.fridayClk Samples.worked Samples.tenCfg)) /\
     weekDays p = 50 /\ weekDaysPast p = 29 /\
     percentComplete p = 57%float /\
     percentComplete p <>
       Spec.percentCompleteExact (weekDaysPast p) (weekDays p) /\
     percentComplete p <>
       Spec.percentCompleteFloat (weekDaysPast p) (weekDays p)) /\
  Spec.percentCompleteExact 29 50 = 58%float /\
  Spec.percentCompleteFloat 29 50 = 58%float.
Proof.
  split; [lia|]. split; [|split; vm_compute; reflexivity].
  exists (computeProjections 50 29 10 100).
  split; [vm_compute; reflexivity|].
  split; [reflexivity|]. split; [reflexivity|].
  split; [vm_compute; reflexivity|].
  split; vm_compute; intros E; discriminate E.
Qed.

(** C5: when fromDate is equal to or after toDate, the projector returns
    its argument as it is. *)
Theorem no_projection_for_empty_range c from to entries :
  from >= to ->
  addProjections c from to entries = Returned entries.
Proof.
  intros H. unfold addProjections.
  destruct (Z.leb_spec to from); [reflexivity|lia].
Qed.

Lemma no_projection_for_empty_range_witness :
  16923 >= 16923 /\
  addProjections Samples.clk 16923 16923
    (aggregateResults Samples.clk Samples.worked Samples.tenCfg) =
  Returned (aggregateResults Samples.clk Samples.worked Samples.tenCfg) /\
  JsObject.get "projections"
    (aggregateResults Samples.clk Samples.worked Samples.tenCfg) = None.
Proof.
  assert (H : 16923 >= 16923) by lia.
  split; [exact H|]. split; [|vm_compute; reflexivity].
  exact (no_projection_for_empty_range Samples.clk 16923 16923 _ H).
Defined.

(** C7: with fromDate < toDate and no week day elapsed, the divisions by
    weekDaysElapsed are carried out all the same, and avgEarningsPerDay,
    avgHoursPerDay, estimatedEarnings and estimatedHours of the attached
    projection are not finite; the witness is a range that starts today
    with nothing entered yet. *)
Theorem no_elapsed_day_not_finite c from to entries :
  from < to ->
  JsObject.get "total" entries <> None ->
  Spec.weekDaysElapsed from to
    (Spec.reference c (haveEntryToday entries)) = 0 ->
  exists p,
    addProjections c from to entries =
      Returned (JsObject.set "projections" (Proj p) entries) /\
    weekDaysPast p = 0 /\
    JsNum.isFinite (avgEarningsPerDay p) = false /\
    JsNum.isFinite (avgHoursPerDay p) = false /\
    JsNum.isFinite (estimatedEarnings p) = false /\
    JsNum.isFinite (estimatedHours p) = false.
Proof.
  intros Hlt Ht H0.
  destruct (ProjectorFacts.totals_returned entries Ht) as [h [e Hhe]].
  eexists. split; [apply ProjectorFacts.addProjections_returns; eassumption|].
  rewrite H0. unfold computeProjections. simpl.
  rewrite FloatFacts.of_Z_0.
  pose proof (FloatFacts.div_0_not_finite e) as He.
  pose proof (FloatFacts.div_0_not_finite h) as Hh.
  rewrite (FloatFacts.floor_not_finite _ He).
  repeat split; try assumption.
  - rewrite FloatFacts.floor_not_finite;
      apply FloatFacts.mul_not_finite_l, He.
  - apply FloatFacts.mul_not_finite_r, Hh.
Qed.

Lemma no_elapsed_day_not_finite_witness :
  exists p,
    addProjections Samples.mondayClk 16923 16927
      (aggregateResults Samples.mondayClk [] (Samples.cfgWith None)) =
    Returned
      (JsObject.set "projections" (Proj p)
         (aggregateResults Samples.mondayClk [] (Samples.cfgWith None))) /\
    weekDaysPast p = 0 /\
    JsNum.isFinite (avgEarningsPerDay p) = false /\
    JsNum.isFinite (avgHoursPerDay p) = false /\
    JsNum.isFinite (estimatedEarnings p) = false /\
    JsNum.isFinite (estimatedHours p) = false.
Proof.
  apply (no_elapsed_day_not_finite Samples.mondayClk 16923 16927).
  - lia.
  - vm_compute. discriminate.
  - vm_compute. reflexivity.
Defined.

(* ================================================================== *)
(** * The command line: properties *)
(* ================================================================== *)

(** C9: when either flag is missing, both dates are set to the first and
    the last day of the current month, whatever the other flag held. *)
Theorem missing_flag_resets_both c argv :
  Argv.f argv = Argv.Absent \/ Argv.t argv = Argv.Absent ->
  defaultRange c argv =
  {| Argv.f := Argv.Str (Moment.format (Moment.startOfMonth c));
     Argv.t := Argv.Str (Moment.format (Moment.endOfMonth c)) |}.
Proof.
  unfold defaultRange. intros [H|H]; rewrite H; simpl;
    rewrite ?orb_true_r; reflexivity.
Qed.

Lemma missing_flag_resets_both_witness :
  defaultRange Samples.clk
    {| Argv.f := Argv.Str "2016-01-01"; Argv.t := Argv.Absent |} =
  {| Argv.f := Argv.Str "2016-05-01"; Argv.t := Argv.Str "2016-05-31" |}.
Proof.
  apply (missing_flag_resets_both Samples.clk
           {| Argv.f := Argv.Str "2016-01-01"; Argv.t := Argv.Absent |}).
  right. reflexivity.
Defined.

(* ================================================================== *)
(** * More facts about plain objects and grouping *)
(* ================================================================== *)

Local Open Scope list_scope.

Module MoreObjectFacts.
Import JsObject ObjectFacts.

Section WithValues.
Context {V : Type}.
Implicit Types (o : t V) (k : string) (v : V).

Lemma replace_replace k v v' o : replace k v (replace k v' o) = replace k v o.
Proof.
  induction o as [|[k0 v0] r IH]; simpl; [reflexivity|].
  destruct (String.eqb k0 k) eqn:E; simpl; rewrite E; [reflexivity|].
  now rewrite IH.
Qed.

Lemma replace_insert_index i k v v' o :
  get k o = None ->
  replace k v (insert_index i k v' o) = insert_index i k v o.
Proof.
  induction o as [|[k0 v0] r IH]; simpl; intros H.
  - now rewrite String.eqb_refl.
  - destruct (String.eqb k0 k) eqn:E; [discriminate|].
    destruct (array_index k0) as [j|]; [destruct (j <? i)|]; simpl;
      rewrite ?E, ?String.eqb_refl; try reflexivity.
    now rewrite IH.
Qed.

Lemma replace_snoc k v v' o :
  get k o = None -> replace k v (o ++ [(k, v')]) = o ++ [(k, v)].
Proof.
  induction o as [|[k0 v0] r IH]; simpl; intros H.
  - now rewrite String.eqb_refl.
  - destruct (String.eqb k0 k) eqn:E; [discriminate|]. now rewrite IH.
Qed.

Lemma has_set k v o : has k (set k v o) = true.
Proof. unfold has. now rewrite get_set_same. Qed.

(** Assigning twice to a property is assigning the last value once. *)
Lemma set_set k v v' o : set k v (set k v' o) = set k v o.
Proof.
  unfold set at 1. rewrite has_set. unfold set.
  destruct (has k o) eqn:E.
  - apply replace_replace.
  - assert (H : get k o = None).
    { unfold has in E. destruct (get k o); [discriminate|reflexivity]. }
    destruct (array_index k).
    + apply replace_insert_index, H.
    + apply replace_snoc, H.
Qed.

Lemma keys_set_new k v o :
  has k o = false -> array_index k = None -> keys (set k v o) = keys o ++ [k].
Proof.
  intros H A. unfold set. rewrite H, A. unfold keys. now rewrite map_app.
Qed.

Lemma keys_set_old k v o : has k o = true -> keys (set k v o) = keys o.
Proof.
  intros H. unfold set. rewrite H. apply keys_replace.
Qed.

End WithValues.

Lemma values_replace_perm {A : Type} k (items : list A) x (o : t (list A)) :
  get k o = Some items ->
  Permutation (List.concat (values (replace k (items ++ [x]) o)))
              (List.concat (values o) ++ [x]).
Proof.
  induction o as [|[k0 v0] r IH]; simpl; [discriminate|].
  destruct (String.eqb k0 k) eqn:E; simpl.
  - intros [= ->]. rewrite <- !app_assoc.
    apply Permutation_app_head, Permutation_app_comm.
  - intros H. rewrite <- app_assoc. apply Permutation_app_head, IH, H.
Qed.

Lemma values_insert_index_perm {A : Type} i k (x : A) (o : t (list A)) :
  Permutation (List.concat (values (insert_index i k [x] o)))
              (List.concat (values o) ++ [x]).
Proof.
  induction o as [|[k0 v0] r IH]; simpl; [reflexivity|].
  assert (P : Permutation (x :: v0 ++ List.concat (values r))
                          ((v0 ++ List.concat (values r)) ++ [x])).
  { apply Permutation_cons_append. }
  destruct (array_index k0) as [j|]; [destruct (j <? i)|]; simpl;
    try exact P.
  rewrite <- app_assoc. apply Permutation_app_head, IH.
Qed.

End MoreObjectFacts.

Module PartitionFacts.
Import JsObject ObjectFacts GroupFacts MoreObjectFacts.

Lemma groupBy_concat (l : list entry) :
  Permutation (List.concat (values (groupBy l))) l.
Proof.
  induction l as [|e l IH] using rev_ind; [reflexivity|].
  rewrite groupBy_snoc. unfold groupBy_step.
  destruct (get (ProjectName e) (groupBy l)) as [items|] eqn:G.
  - unfold set, has. rewrite G.
    rewrite values_replace_perm by exact G.
    apply Permutation_app_tail, IH.
  - unfold set, has. rewrite G.
    destruct (array_index (ProjectName e)).
    + rewrite values_insert_index_perm. apply Permutation_app_tail, IH.
    + unfold values. rewrite map_app, List.concat_app. simpl.
      apply Permutation_app_tail, IH.
Qed.

End PartitionFacts.

(* ================================================================== *)
(** * The aggregator: further properties *)
(* ================================================================== *)

(** X1: grouping loses and duplicates nothing: the groups, put end to
    end, are a rearrangement of the fetched entries; each group is held
    under the name its entries share, and holds them in the order they
    were fetched. *)
Theorem groupBy_partitions_entries (entries : list entry) :
  Permutation (List.concat (JsObject.values (groupBy entries))) entries /\
  NoDup (JsObject.keys (groupBy entries)) /\
  forall p items,
    JsObject.get p (groupBy entries) = Some items ->
    items <> [] /\ items = Spec.group entries p.
Proof.
  split; [apply PartitionFacts.groupBy_concat|].
  split; [apply GroupFacts.NoDup_keys_groupBy|].
  intros p items H. rewrite GroupFacts.get_groupBy in H.
  destruct (Spec.group entries p); [discriminate|].
  injection H as <-. split; [discriminate|reflexivity].
Qed.

(** X2: the result holds one key per project name, then total, then
    haveEntryToday, when no project bears one of these two names. *)
Theorem result_keys c entries cfg :
  ~ In "total" (map ProjectName entries) ->
  ~ In "haveEntryToday" (map ProjectName entries) ->
  JsObject.keys (aggregateResults c entries cfg) =
  Spec.visitOrder entries ++ ["total"; "haveEntryToday"].
Proof.
  intros Ht Hh.
  assert (K : JsObject.keys
                (JsObject.mapValues (fun a (_ : string) => Agg a)
                   (aggregated entries cfg)) = Spec.visitOrder entries).
  { unfold aggregated. rewrite !GroupFacts.keys_mapValues.
    apply OrderFacts.keys_groupBy_visitOrder. }
  assert (K1 : JsObject.keys
                 (JsObject.set "total"
                    (Agg (total (JsObject.values (aggregated entries cfg))))
                    (JsObject.mapValues (fun a (_ : string) => Agg a)
                       (aggregated entries cfg))) =
               Spec.visitOrder entries ++ ["total"]).
  { rewrite MoreObjectFacts.keys_set_new; [now rewrite K| |reflexivity].
    apply not_true_is_false. rewrite ObjectFacts.has_keys, K.
    rewrite <- OrderFacts.keys_groupBy_visitOrder.
    now rewrite GroupFacts.In_keys_groupBy. }
  assert (K2 : forall b,
             JsObject.keys
               (JsObject.set "haveEntryToday" (Flag b)
                  (JsObject.set "total"
                     (Agg (total (JsObject.values (aggregated entries cfg))))
                     (JsObject.mapValues (fun a (_ : string) => Agg a)
                        (aggregated entries cfg)))) =
             Spec.visitOrder entries ++ ["total"; "haveEntryToday"]).
  { intros b. rewrite MoreObjectFacts.keys_set_new;
      [rewrite K1, <- app_assoc; reflexivity| |reflexivity].
    apply not_true_is_false. rewrite ObjectFacts.has_keys, K1, in_app_iff.
    intros [H|[H|[]]]; [|discriminate].
    rewrite <- OrderFacts.keys_groupBy_visitOrder in H.
    now apply GroupFacts.In_keys_groupBy in H. }
  unfold aggregateResults.
  destruct (find (enteredToday c) entries).
  - rewrite MoreObjectFacts.set_set. apply K2.
  - apply K2.
Qed.

Lemma result_keys_witness :
  JsObject.keys
    (aggregateResults Samples.clk Samples.numbered Samples.numberedCfg) =
  ["1"; "2"; "3"; "total"; "haveEntryToday"].
Proof.
  apply (result_keys Samples.clk Samples.numbered Samples.numberedCfg).
  - simpl. intuition discriminate.
  - simpl. intuition discriminate.
Defined.

(** X3: every key of the result is total, haveEntryToday or a project
    name that occurs, each of them is a key, and no key occurs twice. *)
Theorem result_keys_are_names c entries cfg :
  NoDup (JsObject.keys (aggregateResults c entries cfg)) /\
  forall k,
    In k (JsObject.keys (aggregateResults c entries cfg)) <->
    k = "total" \/ k = "haveEntryToday" \/ In k (map ProjectName entries).
Proof.
  split; [apply AggregatorFacts.NoDup_keys_aggregateResults|].
  intros k. unfold aggregateResults.
  destruct (find (enteredToday c) entries);
    rewrite ?ObjectFacts.In_keys_set, GroupFacts.keys_mapValues;
    unfold aggregated; rewrite GroupFacts.keys_mapValues,
      GroupFacts.In_keys_groupBy; tauto.
Qed.

(** X4: a project whose name is neither total nor haveEntryToday keeps
    its aggregate in the result. *)
Theorem project_aggregate_in_result c entries cfg p :
  In p (map ProjectName entries) ->
  p <> "total" -> p <> "haveEntryToday" ->
  JsObject.get p (aggregateResults c entries cfg) =
  Some (Agg (aggregateProject cfg (Spec.group entries p) p)).
Proof.
  intros Hp Ht Hh.
  rewrite AggregatorFacts.get_project_aggregateResults by assumption.
  now rewrite GroupFacts.get_aggregated.
Qed.

Lemma project_aggregate_in_result_witness :
  JsObject.get "B"
    (aggregateResults Samples.clk Samples.withTotal (Samples.cfgWith None)) =
  Some (Agg (aggregateProject (Samples.cfgWith None)
               (Spec.group Samples.withTotal "B") "B")).
Proof.
  apply (project_aggregate_in_result Samples.clk Samples.withTotal
           (Samples.cfgWith None) "B").
  - right. left. reflexivity.
  - discriminate.
  - discriminate.
Defined.

(** X5: a project named haveEntryToday loses its aggregate to the flag,
    yet its hours and earnings are counted in the total. *)
Theorem project_named_haveEntryToday c entries cfg :
  In "haveEntryToday" (map ProjectName entries) ->
  JsObject.get "haveEntryToday" (aggregateResults c entries cfg) =
    Some (Flag (existsb (enteredToday c) entries)) /\
  In "haveEntryToday" (Spec.visitOrder entries) /\
  JsObject.get "total" (aggregateResults c entries cfg) =
    Some (Agg (total (Spec.aggregatesAlong cfg entries
                        (Spec.visitOrder entries)))).
Proof.
  intros H.
  split; [apply AggregatorFacts.get_haveEntryToday_aggregateResults|].
  split.
  - rewrite <- OrderFacts.keys_groupBy_visitOrder.
    now apply GroupFacts.In_keys_groupBy.
  - rewrite AggregatorFacts.get_total_aggregateResults,
      GroupFacts.values_aggregated.
    now rewrite OrderFacts.keys_groupBy_visitOrder.
Qed.

Lemma project_named_haveEntryToday_witness :
  aggregateResults Samples.clk
    [Samples.entryOn 16923 3600 "haveEntryToday"] (Samples.cfgWith None) =
    [("haveEntryToday", Flag false);
     ("total", Agg {| hours := 1; earnings := 0 |})] /\
  JsObject.get "haveEntryToday"
    (aggregateResults Samples.clk
       [Samples.entryOn 16923 3600 "haveEntryToday"] (Samples.cfgWith None)) =
  Some (Flag (existsb (enteredToday Samples.clk)
                [Samples.entryOn 16923 3600 "haveEntryToday"])).
Proof.
  split; [vm_compute; reflexivity|].
  apply (project_named_haveEntryToday Samples.clk
           [Samples.entryOn 16923 3600 "haveEntryToday"]
           (Samples.cfgWith None)).
  left. reflexivity.
Defined.

(** X6: the clock bears on the flag only: every other key of the result
    holds the same value whatever the clock. *)
Theorem only_the_flag_depends_on_the_clock c c' entries cfg k :
  k <> "haveEntryToday" ->
  JsObject.get k (aggregateResults c entries cfg) =
  JsObject.get k (aggregateResults c' entries cfg).
Proof.
  intros Hk.
  destruct (string_dec k "total") as [->|Ht].
  - now rewrite !AggregatorFacts.get_total_aggregateResults.
  - now rewrite !AggregatorFacts.get_project_aggregateResults.
Qed.

Lemma only_the_flag_depends_on_the_clock_witness :
  JsObject.get "A"
    (aggregateResults Samples.clk Samples.worked Samples.tenCfg) =
  JsObject.get "A"
    (aggregateResults Samples.fridayClk Samples.worked Samples.tenCfg).
Proof.
  apply (only_the_flag_depends_on_the_clock Samples.clk Samples.fridayClk
           Samples.worked Samples.tenCfg "A").
  discriminate.
Defined.

(** X7: the offset cancels out of the test for today: the flag is true
    exactly when some entry's timestamp, read as it is, lies between
    midnight UTC of the local date and midnight UTC of the next day,
    both included. *)
Theorem flag_reads_timestamps_as_utc c entries cfg :
  haveEntryToday (aggregateResults c entries cfg) = true <->
  exists e, In e entries /\
            today c * 86400000 <= Date e <= (today c + 1) * 86400000.
Proof.
  unfold haveEntryToday.
  rewrite AggregatorFacts.get_haveEntryToday_aggregateResults,
    existsb_exists.
  split; intros [e [He H]]; exists e; (split; [exact He|]); revert H;
    unfold enteredToday, Moment.startOfDay, Moment.msPerDay,
      Moment.msPerMinute;
    rewrite andb_true_iff, !Z.leb_le; lia.
Qed.

(** X8: the aggregate of a project depends on the entries of that
    project only. *)
Theorem project_aggregate_is_local entries entries' cfg p :
  In p (map ProjectName entries) ->
  Spec.group entries p = Spec.group entries' p ->
  JsObject.get p (aggregated entries cfg) =
  JsObject.get p (aggregated entries' cfg).
Proof.
  intros Hp E.
  assert (Hp' : In p (map ProjectName entries')).
  { destruct (in_dec string_dec p (map ProjectName entries')) as [H|H];
      [exact H|].
    apply GroupFacts.group_nil_iff in H. rewrite <- E in H.
    apply GroupFacts.group_nil_iff in H. contradiction. }
  rewrite !GroupFacts.get_aggregated by assumption. now rewrite E.
Qed.

Lemma project_aggregate_is_local_witness :
  JsObject.get "A" (aggregated Samples.worked Samples.tenCfg) =
  JsObject.get "A"
    (aggregated (Samples.entryOn 16923 60 "B" :: Samples.worked)
       Samples.tenCfg).
Proof.
  apply (project_aggregate_is_local Samples.worked
           (Samples.entryOn 16923 60 "B" :: Samples.worked)
           Samples.tenCfg "A").
  - left. reflexivity.
  - reflexivity.
Defined.

(* ================================================================== *)
(** * The projector: further properties *)
(* ================================================================== *)

Module CountFacts.
Import Spec ProjectorFacts.




Lemma In_calendarDays (from to d : Z) :
  In d (calendarDays from to) <-> from <= d <= to.
Proof.
  unfold calendarDays. rewrite in_map_iff. split.
  - intros [i [<- Hi]]. apply in_seq in Hi. lia.
  - intros H. exists (Z.to_nat (d - from)). split; [lia|].
    apply in_seq. lia.
Qed.

Lemma filter_ext_in' {A : Type} (p q : A -> bool) (l : list A) :
  (forall a, In a l -> p a = q a) -> filter p l = filter q l.
Proof.
  induction l as [|a l IH]; simpl; intros H; [reflexivity|].
  rewrite (H a (or_introl eq_refl)), IH; [reflexivity|].
  intros b Hb. apply H. now right.
Qed.

Lemma elapsed_all (from to reference : Z) :
  to < reference -> weekDaysElapsed from to reference = weekDaysInRange from to.
Proof.
  intros H. unfold weekDaysElapsed, weekDaysInRange. do 2 f_equal.
  apply filter_ext_in'. intros d Hd. apply In_calendarDays in Hd.
  destruct (Z.ltb_spec d reference); [apply andb_true_r|lia].
Qed.

Lemma elapsed_none (from to reference : Z) :
  reference <= from -> weekDaysElapsed from to reference = 0.
Proof.
  intros H. unfold weekDaysElapsed.
  rewrite (filter_ext_in' _ (fun _ => false)).
  - induction (calendarDays from to); simpl; auto.
  - intros d Hd. apply In_calendarDays in Hd.
    destruct (Z.ltb_spec d reference); [lia|apply andb_false_r].
Qed.

Lemma calendarDays_app (mid to : Z) (n : nat) :
  forall from,
    Z.to_nat (mid - from + 1) = n ->
    from <= mid + 1 -> mid <= to ->
    calendarDays from to = calendarDays from mid ++ calendarDays (mid + 1) to.
Proof.
  induction n as [|n IH]; intros from Hn H1 H2.
  - rewrite (calendarDays_nil from mid) by lia. simpl. f_equal. lia.
  - rewrite (calendarDays_cons from to), (calendarDays_cons from mid) by lia.
    simpl. f_equal. apply IH; lia.
Qed.

Lemma weekday_add (d i : Z) :
  Moment.weekday (d + i) = (Moment.weekday d + i) mod 7.
Proof.
  unfold Moment.weekday. rewrite Z.add_mod_idemp_l by lia. f_equal. lia.
Qed.

(** Seven days in a row hold five week days. *)
Lemma week_has_five (d : Z) : weekDaysInRange d (d + 6) = 5.
Proof.
  unfold weekDaysInRange, calendarDays.
  replace (d + 6 - d + 1) with 7 by lia.
  change (Z.to_nat 7) with 7%nat.
  cbn [seq map Z.of_nat Pos.of_succ_nat Pos.succ filter].
  unfold isWeekDay. rewrite !weekday_add.
  pose proof (Z.mod_pos_bound (d + 4) 7 ltac:(lia)) as B.
  fold (Moment.weekday d) in B.
  assert (C : Moment.weekday d = 0 \/ Moment.weekday d = 1 \/
              Moment.weekday d = 2 \/ Moment.weekday d = 3 \/
              Moment.weekday d = 4 \/ Moment.weekday d = 5 \/
              Moment.weekday d = 6) by lia.
  destruct C as [-> | [-> | [-> | [-> | [-> | [-> | ->]]]]]]; reflexivity.
Qed.

Lemma weekDaysInRange_app (from mid to : Z) :
  from <= mid + 1 -> mid <= to ->
  weekDaysInRange from to =
  weekDaysInRange from mid + weekDaysInRange (mid + 1) to.
Proof.
  intros H1 H2. unfold weekDaysInRange.
  rewrite (calendarDays_app mid to _ from eq_refl H1 H2).
  rewrite filter_app, length_app. lia.
Qed.

(** A range of whole weeks holds five week days a week. *)
Lemma whole_weeks (k : nat) :
  forall from,
    weekDaysInRange from (from + 7 * Z.of_nat k - 1) = 5 * Z.of_nat k.
Proof.
  induction k as [|k IH]; intros from.
  - unfold weekDaysInRange. rewrite calendarDays_nil by lia. reflexivity.
  - rewrite (weekDaysInRange_app from (from + 6)) by lia.
    rewrite week_has_five.
    replace (from + 7 * Z.of_nat (S k) - 1)
      with (from + 6 + 1 + 7 * Z.of_nat k - 1) by lia.
    rewrite IH. lia.
Qed.

(** Moving the reference one day on counts that day, if it is a week day
    of the range, and nothing else. *)
Lemma elapsed_next_day (to r : Z) (n : nat) :
  forall from,
    Z.to_nat (to - from + 1) = n ->
    weekDaysElapsed from to (r + 1) =
    weekDaysElapsed from to r +
    (if (from <=? r) && (r <=? to) && isWeekDay r then 1 else 0).
Proof.
  unfold weekDaysElapsed.
  induction n as [|n IH]; intros from Hn.
  - rewrite calendarDays_nil by lia. simpl.
    destruct (Z.leb_spec from r), (Z.leb_spec r to); simpl; try reflexivity.
    lia.
  - rewrite calendarDays_cons by lia. simpl.
    specialize (IH (from + 1) ltac:(lia)).
    destruct (Z.ltb_spec from (r + 1)), (Z.ltb_spec from r),
      (Z.leb_spec from r), (Z.leb_spec r to), (Z.leb_spec (from + 1) r);
      try lia; simpl in *;
      try (assert (from = r) by lia; subst from);
      destruct (isWeekDay r) eqn:Wr; try destruct (isWeekDay from) eqn:Wf;
      simpl in *; rewrite ?andb_true_r, ?andb_false_r in *; simpl; lia.
Qed.

End CountFacts.



(** X10: for a range that ended before today, every week day the
    projector counts in the range counts as elapsed, in any zone. *)
Theorem past_range_is_all_elapsed lo hi z now from to entries :
  Zone.within lo hi z ->
  from < to -> to < Zone.dayOf z now ->
  JsObject.get "total" entries <> None ->
  exists p,
    addProjectionsIn z now from to entries =
      Returned (JsObject.set "projections" (Proj p) entries) /\
    weekDaysPast p = weekDays p.
Proof.
  intros Hz Hlt Hpast Ht.
  destruct (ProjectorFacts.totals_returned entries Ht) as [h [e Hhe]].
  destruct (ZoneFacts.addProjectionsIn_returns lo hi z now from to entries
              h e Hz Hlt Hhe) as [wd [wdp [E [_ [P _]]]]].
  eexists. split; [exact E|]. simpl. auto.
Qed.

Lemma past_range_is_all_elapsed_witness :
  exists p,
    addProjectionsIn ZoneSamples.saoPaulo
      (17099 * 86400000 + 12 * 3600000) 17084 17095
      (aggregateResultsIn ZoneSamples.saoPaulo (-120)
         (17099 * 86400000 + 12 * 3600000) ZoneSamples.octoberWork
         Samples.tenCfg) =
    Returned
      (JsObject.set "projections" (Proj p)
         (aggregateResultsIn ZoneSamples.saoPaulo (-120)
            (17099 * 86400000 + 12 * 3600000) ZoneSamples.octoberWork
            Samples.tenCfg)) /\
    weekDaysPast p = weekDays p.
Proof.
  apply (past_range_is_all_elapsed (Z.min (-180) (-120)) (Z.max (-180) (-120))).
  - apply ZoneFacts.within_oneChange. reflexivity.
  - lia.
  - vm_compute. reflexivity.
  - vm_compute. discriminate.
Defined.

(** X11: when today is before the first day of the range, or is the first
    day with the flag haveEntryToday false, no week day has elapsed, and
    the averages and the estimates of the projection are not finite;
    with the flag true this needs local midnight to exist today. *)
Theorem range_not_begun_is_not_finite lo hi z now from to entries b :
  Zone.within lo hi z ->
  from < to ->
  JsObject.get "total" entries <> None ->
  JsObject.get "haveEntryToday" entries = Some (Flag b) ->
  (b = false /\ Zone.dayOf z now <= from) \/
  (Zone.dayOf z now < from /\ Zone.regular z (Zone.dayOf z now)) ->
  exists p,
    addProjectionsIn z now from to entries =
      Returned (JsObject.set "projections" (Proj p) entries) /\
    weekDaysPast p = 0 /\
    JsNum.isFinite (avgEarningsPerDay p) = false /\
    JsNum.isFinite (avgHoursPerDay p) = false /\
    JsNum.isFinite (estimatedEarnings p) = false /\
    JsNum.isFinite (estimatedHours p) = false.
Proof.
  intros Hz Hlt Ht Hb Hnow.
  destruct (ProjectorFacts.totals_returned entries Ht) as [h [e Hhe]].
  destruct (ZoneFacts.addProjectionsIn_returns lo hi z now from to entries
              h e Hz Hlt Hhe) as [wd [wdp [E [_ [_ N]]]]].
  assert (H0 : wdp = 0).
  { apply N. rewrite (ZoneResultFacts.haveEntryToday_flag entries b Hb).
    unfold Zone.startOfDay.
    destruct Hnow as [[-> Hd]|[Hd Hr]].
    - apply (ZoneFacts.parse_le lo hi z Hz), Hd.
    - pose proof (ZoneFacts.parse_le lo hi z Hz (Zone.dayOf z now + 1) from
                    ltac:(lia)) as P1.
      pose proof (ZoneFacts.parse_le lo hi z Hz (Zone.dayOf z now) from
                    ltac:(lia)) as P0.
      rewrite (ZoneFacts.addDays_regular z _ Hr).
      destruct b; assumption. }
  subst wdp. eexists. split; [exact E|].
  unfold computeProjections. simpl. rewrite FloatFacts.of_Z_0.
  pose proof (FloatFacts.div_0_not_finite e) as He.
  pose proof (FloatFacts.div_0_not_finite h) as Hh.
  rewrite (FloatFacts.floor_not_finite _ He).
  repeat split; try assumption.
  - rewrite FloatFacts.floor_not_finite;
      apply FloatFacts.mul_not_finite_l, He.
  - apply FloatFacts.mul_not_finite_r, Hh.
Qed.

Lemma range_not_begun_is_not_finite_witness :
  exists p,
    addProjectionsIn ZoneSamples.saoPaulo ZoneSamples.wednesdayMorning
      17091 17095
      (aggregateResultsIn ZoneSamples.saoPaulo (-180)
         ZoneSamples.wednesdayMorning [] (Samples.cfgWith None)) =
    Returned
      (JsObject.set "projections" (Proj p)
         (aggregateResultsIn ZoneSamples.saoPaulo (-180)
            ZoneSamples.wednesdayMorning [] (Samples.cfgWith None))) /\
    weekDaysPast p = 0 /\
    JsNum.isFinite (avgEarningsPerDay p) = false /\
    JsNum.isFinite (avgHoursPerDay p) = false /\
    JsNum.isFinite (estimatedEarnings p) = false /\
    JsNum.isFinite (estimatedHours p) = false.
Proof.
  apply (range_not_begun_is_not_finite
           (Z.min (-180) (-120)) (Z.max (-180) (-120)) _ _ _ _ _ false).
  - apply ZoneFacts.within_oneChange. reflexivity.
  - lia.
  - vm_compute. discriminate.
  - vm_compute. reflexivity.
  - left. split; [reflexivity|]. vm_compute. discriminate.
Defined.

(** X12: a range of k whole weeks (7k days, k >= 1) has 5k week days,
    whatever the day of the week it starts on, where local midnight
    exists on every day of the range. *)
Theorem whole_weeks_have_five_week_days_each lo hi z now from k entries :
  Zone.within lo hi z ->
  1 <= k ->
  (forall d, from <= d <= from + 7 * k - 1 -> Zone.regular z d) ->
  JsObject.get "total" entries <> None ->
  exists p,
    addProjectionsIn z now from (from + 7 * k - 1) entries =
      Returned (JsObject.set "projections" (Proj p) entries) /\
    weekDays p = 5 * k.
Proof.
  intros Hz Hk Hreg Ht.
  destruct (ProjectorFacts.totals_returned entries Ht) as [h [e Hhe]].
  unfold addProjectionsIn.
  rewrite (ZoneFacts.parse_leb lo hi z Hz).
  destruct (Z.leb_spec (from + 7 * k - 1) from); [lia|].
  rewrite (ZoneFacts.walkIn_counts lo hi z Hz) by
    (try exact Hreg; apply (ZoneFacts.fuel_covers_days lo hi z Hz); lia).
  rewrite Hhe. eexists. split; [reflexivity|]. simpl.
  replace k with (Z.of_nat (Z.to_nat k)) by lia.
  apply CountFacts.whole_weeks.
Qed.

Lemma whole_weeks_have_five_week_days_each_witness :
  exists p,
    addProjectionsIn ZoneSamples.losAngeles ZoneSamples.sundayInLosAngeles
      16868 (16868 + 7 * 2 - 1)
      (aggregateResultsIn ZoneSamples.losAngeles (-420)
         ZoneSamples.sundayInLosAngeles ZoneSamples.marchWork Samples.tenCfg) =
    Returned
      (JsObject.set "projections" (Proj p)
         (aggregateResultsIn ZoneSamples.losAngeles (-420)
            ZoneSamples.sundayInLosAngeles ZoneSamples.marchWork
            Samples.tenCfg)) /\
    weekDays p = 5 * 2.
Proof.
  apply (whole_weeks_have_five_week_days_each
           (Z.min (-480) (-420)) (Z.max (-480) (-420))).
  - apply ZoneFacts.within_oneChange. reflexivity.
  - lia.
  - intros d Hd. apply ZoneResultFacts.regular_oneChange.
    destruct (Z.le_gt_cases d 16873); [left|right]; lia.
  - vm_compute. discriminate.
Defined.

(** X13: attaching the projection leaves every other key of the result
    as it was. *)
Theorem projection_leaves_other_keys c from to entries result :
  addProjections c from to entries = Returned result ->
  forall k, k <> "projections" ->
    JsObject.get k result = JsObject.get k entries.
Proof.
  unfold addProjections. intros H k Hk.
  destruct (to <=? from); [now injection H as <-|].
  destruct (walk _ _ _ _ _ _) as [[wd wdp]|]; [|discriminate].
  destruct (totals entries) as [[h e]| |]; try discriminate.
  injection H as <-. apply ObjectFacts.get_set_other. congruence.
Qed.

Lemma projection_leaves_other_keys_witness :
  JsObject.get "A"
    (JsObject.set "projections" (Proj (computeProjections 5 2 10 100))
       (aggregateResults Samples.clk Samples.worked Samples.tenCfg)) =
  JsObject.get "A"
    (aggregateResults Samples.clk Samples.worked Samples.tenCfg).
Proof.
  apply (projection_leaves_other_keys Samples.clk 16923 16927
           (aggregateResults Samples.clk Samples.worked Samples.tenCfg)).
  - vm_compute. reflexivity.
  - discriminate.
Defined.

(** X14: the projector always returns on what the aggregator produced:
    it neither throws nor loops, whatever the range and the clocks. *)
Theorem projector_returns_on_aggregated c c' from to entries cfg :
  exists result,
    addProjections c' from to (aggregateResults c entries cfg) =
    Returned result.
Proof.
  destruct (Z.le_gt_cases to from) as [H|H].
  - exists (aggregateResults c entries cfg). unfold addProjections.
    destruct (Z.leb_spec to from); [reflexivity|lia].
  - assert (Ht : JsObject.get "total" (aggregateResults c entries cfg)
                 <> None).
    { rewrite AggregatorFacts.get_total_aggregateResults. discriminate. }
    destruct (ProjectorFacts.totals_returned _ Ht) as [h [e Hhe]].
    eexists. apply ProjectorFacts.addProjections_returns; [lia|eassumption].
Qed.

(** X15: projecting a second time changes nothing. *)
Theorem projecting_twice_is_projecting_once c from to entries result :
  addProjections c from to entries = Returned result ->
  addProjections c from to result = Returned result.
Proof.
  intros H. unfold addProjections in H |- *.
  destruct (to <=? from) eqn:G; [now injection H as <-|].
  destruct (walk _ _ _ _ _ _) as [[wd wdp]|] eqn:W; [|discriminate].
  destruct (totals entries) as [[h e]| |] eqn:T; try discriminate.
  injection H as <-.
  assert (Hh : haveEntryToday
                 (JsObject.set "projections"
                    (Proj (computeProjections wd wdp h e)) entries) =
               haveEntryToday entries).
  { unfold haveEntryToday.
    now rewrite ObjectFacts.get_set_other by discriminate. }
  assert (Ht : totals
                 (JsObject.set "projections"
                    (Proj (computeProjections wd wdp h e)) entries) =
               totals entries).
  { unfold totals.
    now rewrite ObjectFacts.get_set_other by discriminate. }
  rewrite Hh, W, Ht, T. now rewrite MoreObjectFacts.set_set.
Qed.

Lemma projecting_twice_is_projecting_once_witness :
  addProjections Samples.clk 16923 16927
    (JsObject.set "projections" (Proj (computeProjections 5 2 10 100))
       (aggregateResults Samples.clk Samples.worked Samples.tenCfg)) =
  Returned
    (JsObject.set "projections" (Proj (computeProjections 5 2 10 100))
       (aggregateResults Samples.clk Samples.worked Samples.tenCfg)).
Proof.
  apply (projecting_twice_is_projecting_once Samples.clk 16923 16927
           (aggregateResults Samples.clk Samples.worked Samples.tenCfg)).
  vm_compute. reflexivity.
Defined.

(** X16: an entry of today moves the reference to tomorrow: compared
    with the same range without an entry of today, the projection counts
    today as elapsed when today is a week day of the range, and is the
    same count otherwise; the week days in range are the same.  This is
    so where local midnight exists on every day of the range and
    today. *)
Theorem entry_today_counts_today lo hi z now from to withEntry without :
  Zone.within lo hi z ->
  from < to ->
  (forall d, from <= d <= to -> Zone.regular z d) ->
  Zone.regular z (Zone.dayOf z now) ->
  JsObject.get "total" withEntry <> None ->
  JsObject.get "total" without <> None ->
  JsObject.get "haveEntryToday" withEntry = Some (Flag true) ->
  JsObject.get "haveEntryToday" without = Some (Flag false) ->
  exists p p',
    addProjectionsIn z now from to withEntry =
      Returned (JsObject.set "projections" (Proj p) withEntry) /\
    addProjectionsIn z now from to without =
      Returned (JsObject.set "projections" (Proj p') without) /\
    weekDays p = weekDays p' /\
    weekDaysPast p =
      weekDaysPast p' +
      (if (from <=? Zone.dayOf z now) && (Zone.dayOf z now <=? to) &&
          Spec.isWeekDay (Zone.dayOf z now)
       then 1 else 0).
Proof.
  intros Hz Hlt Hreg Htoday Ht Ht' Hw Hwo.
  destruct (ProjectorFacts.totals_returned _ Ht) as [h [e Hhe]].
  destruct (ProjectorFacts.totals_returned _ Ht') as [h' [e' Hhe']].
  do 2 eexists.
  split; [apply (ZoneFacts.addProjectionsIn_counts lo hi); eassumption|].
  split; [apply (ZoneFacts.addProjectionsIn_counts lo hi); eassumption|].
  rewrite (ZoneResultFacts.haveEntryToday_flag _ _ Hw),
    (ZoneResultFacts.haveEntryToday_flag _ _ Hwo).
  simpl. split; [reflexivity|].
  apply (CountFacts.elapsed_next_day to (Zone.dayOf z now) _ from eq_refl).
Qed.

Lemma entry_today_counts_today_witness :
  exists p p',
    addProjectionsIn ZoneSamples.losAngeles ZoneSamples.mondayInLosAngeles
      16871 16875
      (aggregateResultsIn ZoneSamples.losAngeles (-420)
         ZoneSamples.mondayInLosAngeles ZoneSamples.mondayWork
         Samples.tenCfg) =
    Returned
      (JsObject.set "projections" (Proj p)
         (aggregateResultsIn ZoneSamples.losAngeles (-420)
            ZoneSamples.mondayInLosAngeles ZoneSamples.mondayWork
            Samples.tenCfg)) /\
    addProjectionsIn ZoneSamples.losAngeles ZoneSamples.mondayInLosAngeles
      16871 16875
      (aggregateResultsIn ZoneSamples.losAngeles (-420)
         ZoneSamples.mondayInLosAngeles ZoneSamples.marchWork
         Samples.tenCfg) =
    Returned
      (JsObject.set "projections" (Proj p')
         (aggregateResultsIn ZoneSamples.losAngeles (-420)
            ZoneSamples.mondayInLosAngeles ZoneSamples.marchWork
            Samples.tenCfg)) /\
    weekDays p = weekDays p' /\
    weekDaysPast p = weekDaysPast p' + 1.
Proof.
  apply (entry_today_counts_today
           (Z.min (-480) (-420)) (Z.max (-480) (-420))).
  - apply ZoneFacts.within_oneChange. reflexivity.
  - lia.
  - intros d Hd. apply ZoneResultFacts.regular_oneChange.
    destruct (Z.le_gt_cases d 16873); [left|right]; lia.
  - apply ZoneResultFacts.regular_oneChange. right. vm_compute.
    split; discriminate.
  - vm_compute. discriminate.
  - vm_compute. discriminate.
  - vm_compute. reflexivity.
  - vm_compute. reflexivity.
Defined.



(* ================================================================== *)
(** * The command line and the configuration: further properties *)
(* ================================================================== *)

Module MoreFloatFacts.
Import JsNum.

Lemma isZero_0_mul (h : float) :
  isFinite h = true -> isZero (0 * h) = true.
Proof.
  unfold isFinite, isZero. rewrite mul_spec.
  change (Prim2SF 0) with (S754_zero false).
  destruct (Prim2SF h) as [s|s| |s m e]; try discriminate; reflexivity.
Qed.

Lemma isNaN_0_mul (h : float) :
  isFinite h = false -> isNaN (0 * h) = true.
Proof.
  unfold isFinite, isNaN. rewrite mul_spec.
  change (Prim2SF 0) with (S754_zero false).
  destruct (Prim2SF h) as [s|s| |s m e]; try discriminate; reflexivity.
Qed.

Lemma isZero_add (x y : float) :
  isZero x = true -> isZero y = true -> isZero (x + y) = true.
Proof.
  unfold isZero. rewrite add_spec.
  destruct (Prim2SF x) as [s|s| |s m e]; try discriminate;
    destruct (Prim2SF y) as [s'|s'| |s' m' e']; try discriminate;
    destruct s, s'; reflexivity.
Qed.

End MoreFloatFacts.

(** X18: with both flags given values that are truthy, the range is the
    one given; and the defaults, once set, are kept: setting them is
    idempotent. *)
Theorem defaultRange_keeps_a_given_range c argv :
  (Argv.truthy (Argv.f argv) = true -> Argv.truthy (Argv.t argv) = true ->
   defaultRange c argv = argv) /\
  defaultRange c (defaultRange c argv) = defaultRange c argv.
Proof.
  split.
  - intros Hf Ht. unfold defaultRange. now rewrite Hf, Ht.
  - unfold defaultRange at 2 3.
    destruct (negb (Argv.truthy (Argv.f argv)) ||
              negb (Argv.truthy (Argv.t argv))) eqn:E.
    + unfold defaultRange, Moment.startOfMonth, Moment.endOfMonth.
      destruct (Moment.civil_from_days (today c)) as [[y m] d].
      reflexivity.
    + unfold defaultRange. now rewrite E.
Qed.

Lemma defaultRange_keeps_a_given_range_witness :
  defaultRange Samples.clk
    {| Argv.f := Argv.Str "2016-01-04"; Argv.t := Argv.Str "2016-01-08" |} =
  {| Argv.f := Argv.Str "2016-01-04"; Argv.t := Argv.Str "2016-01-08" |}.
Proof.
  apply (proj1 (defaultRange_keeps_a_given_range Samples.clk
                  {| Argv.f := Argv.Str "2016-01-04";
                     Argv.t := Argv.Str "2016-01-08" |}));
    reflexivity.
Defined.

(** X19: with no rates in the configuration, as after the first run's
    prompt, each project earns zero when its hours are finite and NaN
    when they are not; the total earns zero when the hours of every
    project are finite. *)
Theorem no_rates_no_earnings z utcOffset now entries cfg :
  rates cfg = None ->
  (forall k a,
     k <> "total" ->
     JsObject.get k (aggregateResultsIn z utcOffset now entries cfg) =
       Some (Agg a) ->
     (JsNum.isFinite (hours a) = true -> isZero (earnings a) = true) /\
     (JsNum.isFinite (hours a) = false -> JsNum.isNaN (earnings a) = true)) /\
  ((forall p a, JsObject.get p (aggregated entries cfg) = Some a ->
                JsNum.isFinite (hours a) = true) ->
   forall a,
     JsObject.get "total" (aggregateResultsIn z utcOffset now entries cfg) =
       Some (Agg a) ->
     isZero (earnings a) = true).
Proof.
  intros Hr.
  assert (P : forall p a, JsObject.get p (aggregated entries cfg) = Some a ->
                          earnings a = (0 * hours a)%float).
  { intros p a H. unfold aggregated in H.
    rewrite GroupFacts.get_mapValues in H.
    destruct (JsObject.get p (groupBy entries)); [|discriminate].
    injection H as <-. simpl. unfold rate. rewrite Hr. reflexivity. }
  split.
  - intros k a Ht Hk.
    destruct (string_dec k "haveEntryToday") as [->|Hh].
    + rewrite ZoneResultFacts.get_haveEntryToday_aggregateResultsIn in Hk.
      discriminate.
    + rewrite ZoneResultFacts.get_project_aggregateResultsIn in Hk by assumption.
      destruct (JsObject.get k (aggregated entries cfg)) eqn:G;
        [|discriminate].
      injection Hk as <-. rewrite (P k _ G). split.
      * apply MoreFloatFacts.isZero_0_mul.
      * apply MoreFloatFacts.isNaN_0_mul.
  - intros Hfin a Hk.
    rewrite ZoneResultFacts.get_total_aggregateResultsIn in Hk.
    injection Hk as <-.
    assert (A : Forall (fun a => isZero (earnings a) = true)
                  (JsObject.values (aggregated entries cfg))).
    { apply Forall_forall. intros a Ha. unfold JsObject.values in Ha.
      apply in_map_iff in Ha. destruct Ha as [[p a'] [<- Hin]].
      assert (G : JsObject.get p (aggregated entries cfg) = Some a').
      { apply AggregatorFacts.In_get; [|exact Hin].
        unfold aggregated. rewrite GroupFacts.keys_mapValues.
        apply GroupFacts.NoDup_keys_groupBy. }
      simpl. rewrite (P p _ G).
      apply MoreFloatFacts.isZero_0_mul, (Hfin p), G. }
    unfold total.
    assert (Z0 : isZero (earnings {| hours := 0; earnings := 0 |})
                 = true) by reflexivity.
    revert Z0. generalize {| hours := 0; earnings := 0 |}.
    induction A as [|x l Hx _ IH]; intros acc Hacc; simpl; [exact Hacc|].
    apply IH. simpl. now apply MoreFloatFacts.isZero_add.
Qed.

Lemma no_rates_no_earnings_witness :
  JsObject.get "A"
    (aggregateResultsIn ZoneSamples.losAngeles (-420)
       ZoneSamples.sundayInLosAngeles
       ZoneSamples.withOverflow
       (promptForCredentials "me@example.com" "secret")) =
    Some (Agg {| hours := 10; earnings := 0 |}) /\
  isZero (earnings {| hours := 10; earnings := 0 |}) = true.
Proof.
  assert (G : JsObject.get "A"
    (aggregateResultsIn ZoneSamples.losAngeles (-420)
       ZoneSamples.sundayInLosAngeles
       ZoneSamples.withOverflow
       (promptForCredentials "me@example.com" "secret")) =
    Some (Agg {| hours := 10; earnings := 0 |})) by (vm_compute; reflexivity).
  split; [exact G|].
  refine (proj1 (proj1 (no_rates_no_earnings ZoneSamples.losAngeles (-420)
            ZoneSamples.sundayInLosAngeles ZoneSamples.withOverflow
            (promptForCredentials "me@example.com" "secret")
            eq_refl) "A" _ _ G) eq_refl).
  discriminate.
Defined.

(** One project whose hours overflow makes the earnings of the total
    NaN, and leaves those of the other projects at zero. *)
Example overflowing_project_spoils_the_total_only :
  JsObject.get "B"
    (aggregateResultsIn ZoneSamples.losAngeles (-420)
       ZoneSamples.sundayInLosAngeles ZoneSamples.withOverflow
       (promptForCredentials "me@example.com" "secret")) =
    Some (Agg {| hours := infinity; earnings := nan |}) /\
  JsObject.get "total"
    (aggregateResultsIn ZoneSamples.losAngeles (-420)
       ZoneSamples.sundayInLosAngeles ZoneSamples.withOverflow
       (promptForCredentials "me@example.com" "secret")) =
    Some (Agg {| hours := infinity; earnings := nan |}).
Proof. split; vm_compute; reflexivity. Qed.
